(** * eBay Book Price Searcher: a shallow embedding of [bookvalue.py]

    The worker thread ([Worker.run], [Worker.perform_search],
    [Worker.get_aggregate_value]) is embedded as a program in a small
    state-and-output monad: the state is the world outside the worker (the
    browser session, the clock, the random generator, the cancellation flag
    written by the GUI thread), the output is the sequence of signals the
    worker emits and of commands it sends to the browser.

    The file-handling half of the main window ([EbaySearcher.process_file],
    [update_table], [export_results]) is embedded as functions on a record
    of the window's fields, over an interface for the spreadsheet library.

    Scope of the model.
    - Strings are sequences of code points below 256.
    - Row entries are strings, as the docstrings of [Worker.perform_search]
      declare them.
    - The only exception the browser calls raise is [TimeoutException] from
      [WebDriverWait.until], the one the code handles. *)

From Stdlib Require Import String Ascii List ZArith QArith Bool Lia DecimalString.
Import ListNotations.
Close Scope Q_scope.
Local Open Scope nat_scope.
Local Open Scope list_scope.
Local Open Scope string_scope.

Set Implicit Arguments.

(** ** Python strings *)

Module Py.

(** Truth value of a [str]: the empty string is false. *)
Definition truthy (s : string) : bool :=
  match s with
  | EmptyString => false
  | String _ _ => true
  end.

(** [any(xs)] on a list of strings. *)
Definition any (xs : list string) : bool := existsb truthy xs.

(** [str.isspace] on one character, for code points below 256:
    TAB, LF, VT, FF, CR, FS, GS, RS, US, SPACE, NEL and NBSP. *)
Definition isspace (c : ascii) : bool :=
  let n := nat_of_ascii c in
  ((9 <=? n)%nat && (n <=? 13)%nat) || ((28 <=? n)%nat && (n <=? 32)%nat)
  || (n =? 133)%nat || (n =? 160)%nat.

Fixpoint lstrip (s : string) : string :=
  match s with
  | EmptyString => EmptyString
  | String c r => if isspace c then lstrip r else s
  end.

Fixpoint rstrip (s : string) : string :=
  match s with
  | EmptyString => EmptyString
  | String c r =>
      match rstrip r with
      | EmptyString => if isspace c then EmptyString else String c EmptyString
      | r' => String c r'
      end
  end.

(** [s.strip()] with no argument. *)
Definition strip (s : string) : string := rstrip (lstrip s).

(** [str(n)] for a non-negative integer. *)
Definition str_of_nat (n : nat) : string :=
  NilZero.string_of_uint (Nat.to_uint n).

Definition str_of_N (n : N) : string :=
  NilZero.string_of_uint (N.to_uint n).

(** Nearest integer to [n / d], ties to the even one ([0 <= n], [0 < d]). *)
Definition round_half_even (n d : Z) : Z :=
  let k := (n / d)%Z in
  let r := (n mod d)%Z in
  match (2 * r ?= d)%Z with
  | Lt => k
  | Gt => (k + 1)%Z
  | Eq => if Z.even k then k else (k + 1)%Z
  end.

(** [f"{x:.2f}"]: a float is a rational, and the conversion rounds its
    exact value to two decimals, ties to even. *)
Definition format_2f (x : Q) : string :=
  let n := Qnum x in
  let d := Zpos (Qden x) in
  let h := round_half_even (100 * Z.abs n) d in
  let frac := Z.to_N (h mod 100) in
  (if (n <? 0)%Z then "-" else "")
    ++ str_of_N (Z.to_N (h / 100)) ++ "."
    ++ (if (frac <? 10)%N then "0" else "") ++ str_of_N frac.

End Py.

(** ** The worker's outside world *)

(** What the worker calls and reads, over a world of type [W].
    - [running]: the value of [self._running] that a read finds; the GUI
      thread's [stop()] clears it.
    - [driver_get url]: [self.driver.get(url)].
    - [wait_presence t css]: [WebDriverWait(driver, t).until(
      presence_of_element_located((By.CSS_SELECTOR, css)))]; [false] is
      [TimeoutException].
    - [wait_visibility t xpath]: [WebDriverWait(driver, t).until(
      visibility_of_element_located((By.XPATH, xpath)))] followed by
      [.text]; [None] is [TimeoutException].
    - [random_uniform a b]: [random.uniform(a, b)].
    - [time_sleep d]: [time.sleep(d)].
    - [process_events]: [QCoreApplication.processEvents()]. *)
Record Env (W : Type) : Type := {
  running : W -> bool;
  driver_get : string -> W -> W;
  wait_presence : Z -> string -> W -> bool * W;
  wait_visibility : Z -> string -> W -> option string * W;
  random_uniform : Z -> Z -> W -> Q * W;
  time_sleep : Q -> W -> W;
  process_events : W -> W
}.

(** What an observer of the worker sees: the three Qt signals, the pages
    the browser is sent to, and the pauses. *)
Inductive Event : Type :=
| log_message (msg : string)
| update_result (row : list string)
| search_complete
| Navigate (url : string)
| Sleep (delay : Q).

Definition Trace := list Event.

Fixpoint logs (tr : Trace) : list string :=
  match tr with
  | [] => []
  | log_message m :: r => m :: logs r
  | _ :: r => logs r
  end.

Fixpoint results (tr : Trace) : list (list string) :=
  match tr with
  | [] => []
  | update_result row :: r => row :: results r
  | _ :: r => results r
  end.

Fixpoint navigations (tr : Trace) : list string :=
  match tr with
  | [] => []
  | Navigate u :: r => u :: navigations r
  | _ :: r => navigations r
  end.

Fixpoint sleeps (tr : Trace) : list Q :=
  match tr with
  | [] => []
  | Sleep d :: r => d :: sleeps r
  | _ :: r => sleeps r
  end.

Fixpoint completions (tr : Trace) : nat :=
  match tr with
  | [] => 0
  | search_complete :: r => S (completions r)
  | _ :: r => completions r
  end.

(** ** The monad: world passing plus emitted events *)

Definition M (W A : Type) : Type := W -> A * W * Trace.

Definition ret {W A} (a : A) : M W A := fun w => (a, w, []).

Definition bind {W A B} (m : M W A) (f : A -> M W B) : M W B :=
  fun w =>
    let '(a, w1, t1) := m w in
    let '(b, w2, t2) := f a w1 in
    (b, w2, (t1 ++ t2)%list).

Definition emit {W} (e : Event) : M W unit := fun w => (tt, w, [e]).

(** A call that returns a value and moves the world. *)
Definition call {W A} (f : W -> A * W) : M W A :=
  fun w => let '(a, w1) := f w in (a, w1, []).

(** A call made for its effect only. *)
Definition exec {W} (f : W -> W) : M W unit := fun w => (tt, f w, []).

(** A read of shared state. *)
Definition peek {W A} (f : W -> A) : M W A := fun w => (f w, w, []).

Declare Scope worker_scope.
Delimit Scope worker_scope with worker.
Notation "x <- m ;; k" := (bind m (fun x => k))
  (at level 61, m at next level, right associativity) : worker_scope.
Notation "m ;; k" := (bind m (fun _ => k))
  (at level 61, right associativity) : worker_scope.

Definition value {W A} (r : A * W * Trace) : A := fst (fst r).
Definition world {W A} (r : A * W * Trace) : W := snd (fst r).
Definition trace {W A} (r : A * W * Trace) : Trace := snd r.

(** ** class Worker *)

Module Worker.

(** The URL built at the top of [perform_search]. *)
Definition search_url (search_query : string) : string :=
  "https://www.ebay.com/sh/research?marketplace=EBAY-US"
    ++ "&keywords=" ++ search_query ++ "&dayRange=365&endDate=1724798549762"
    ++ "&startDate=1693262549762&categoryId=0&offset=0&limit=50"
    ++ "&tabName=SOLD&tz=America%2FNew_York".

Definition xpath_avg_price : string :=
  "//section[contains(., 'Avg sold price')]/div[@class='metric-value']".
Definition xpath_price_range : string :=
  "//section[contains(., 'Sold price range')]/div[@class='metric-value']".
Definition xpath_avg_shipping : string :=
  "//section[contains(., 'Avg shipping')]/div[@class='metric-value']".
Definition xpath_total_sellers : string :=
  "//section[contains(., 'Total sellers')]/div[@class='metric-value']".

(** The CSS selector of the element that holds the statistics. *)
Definition container : string := "div.aggregates".

Definition could_not_find_msg (xpath : string) : string :=
  "Could not find element with xpath: " ++ xpath ++ ". Returning empty value.".

Definition found_msg (title author isbn : string) : string :=
  "Found results for " ++ title ++ " by " ++ author ++ " (ISBN: " ++ isbn ++ ")".

Definition sleeping_msg (delay : Q) : string :=
  "Sleeping for " ++ Py.format_2f delay ++ " seconds to avoid being flagged.".

(** One input row: [title, author, isbn = entry]. *)
Definition Entry : Type := string * string * string.

(** The two ways an iteration of the [for] loop ends. *)
Inductive LoopCtl : Type := Next | Break.

Section WithEnv.

Context {W : Type} (E : Env W).

Local Open Scope worker_scope.

Definition log (msg : string) : M W unit := emit (log_message msg).

(** [Worker.get_aggregate_value] *)
Definition get_aggregate_value (xpath : string) : M W string :=
  element <- call (wait_visibility E 1 xpath) ;;
  match element with
  | Some text => ret (Py.strip text)
  | None =>
      delay <- call (random_uniform E 3 9) ;;
      log (sleeping_msg delay) ;;
      exec (time_sleep E delay) ;; emit (Sleep delay) ;;
      log (could_not_find_msg xpath) ;;
      ret ""
  end.

(** The four lookups of [perform_search], in source order. *)
Definition aggregate_values : M W (list string) :=
  avg_price <- get_aggregate_value xpath_avg_price ;;
  price_range <- get_aggregate_value xpath_price_range ;;
  avg_shipping <- get_aggregate_value xpath_avg_shipping ;;
  total_sellers <- get_aggregate_value xpath_total_sellers ;;
  ret [avg_price; price_range; avg_shipping; total_sellers].

Definition data_extracted_msg (fields : list string) : string :=
  "Data extracted: Avg Price: " ++ nth 0 fields ""
    ++ ", Price Range: " ++ nth 1 fields ""
    ++ ", Avg Shipping: " ++ nth 2 fields ""
    ++ ", Total Sellers: " ++ nth 3 fields "".

(** [Worker.perform_search] *)
Definition perform_search (search_query title author isbn : string)
  : M W bool :=
  let url := search_url search_query in
  exec (driver_get E url) ;; emit (Navigate url) ;;
  log ("Navigating to URL: " ++ url) ;;
  present <- call (wait_presence E 19 container) ;;
  if present then
    log "Aggregates section found." ;;
    fields <- aggregate_values ;;
    log (data_extracted_msg fields) ;;
    if negb (Py.any fields) then
      log ("No valid data found for " ++ search_query ++ ". Skipping.") ;;
      ret false
    else
      log (found_msg title author isbn) ;;
      emit (update_result ([title; author; isbn] ++ fields)%list) ;;
      ret true
  else
    log ("No results found for " ++ search_query ++ ". Skipping.") ;;
    ret false.

Definition primary_query (entry : Entry) : string :=
  let '(title, author, isbn) := entry in
  if Py.truthy isbn then isbn else title ++ " " ++ author.

Definition secondary_query (entry : Entry) : string :=
  let '(title, author, isbn) := entry in title ++ " " ++ author.

Definition all_empty (entry : Entry) : bool :=
  let '(title, author, isbn) := entry in
  negb (Py.truthy title) && negb (Py.truthy author) && negb (Py.truthy isbn).

(** Line 94: the first query, by identifier when there is one. *)
Definition primary_attempt (entry : Entry) : M W bool :=
  let '(title, author, isbn) := entry in
  perform_search (primary_query entry) title author isbn.

(** Lines 95-96: the query by title and author. *)
Definition secondary_attempt (entry : Entry) : M W bool :=
  let '(title, author, isbn) := entry in
  perform_search (secondary_query entry) title author isbn.

(** Lines 93-96: a second query when the first found nothing. *)
Definition attempts (entry : Entry) : M W unit :=
  found <- primary_attempt entry ;;
  if negb found then
    secondary_attempt entry ;; ret tt
  else ret tt.

(** Lines 98-100: the pause between rows. *)
Definition pause : M W unit :=
  delay <- call (random_uniform E 15 40) ;;
  log (sleeping_msg delay) ;;
  exec (time_sleep E delay) ;; emit (Sleep delay).

Definition processing_msg (entry : Entry) : string :=
  let '(title, author, isbn) := entry in
  "Processing: " ++ title ++ ", " ++ author ++ ", ISBN: " ++ isbn.

(** The part of the loop body after the skip test (lines 91-102). *)
Definition process (entry : Entry) : M W unit :=
  log (processing_msg entry) ;;
  attempts entry ;;
  pause ;;
  exec (process_events E).

(** One iteration of the loop of [Worker.run]. *)
Definition iteration (entry : Entry) : M W LoopCtl :=
  r <- peek (running E) ;;
  if negb r then
    log "Search cancelled." ;; ret Break
  else if all_empty entry then
    log "Skipping empty line." ;; ret Next
  else
    process entry ;; ret Next.

(** [for entry in self.data: ...]; the result tells whether the loop
    ran off the end of the list or left it by [break]. *)
Fixpoint for_each (data : list Entry) : M W LoopCtl :=
  match data with
  | [] => ret Next
  | entry :: rest =>
      c <- iteration entry ;;
      match c with
      | Break => ret Break
      | Next => for_each rest
      end
  end.

(** [Worker.run] *)
Definition run (data : list Entry) : M W unit :=
  for_each data ;; emit search_complete.

End WithEnv.

End Worker.


(** ** Python exceptions *)

(** An exception is known by the classes it is an instance of (the method
    resolution order of its class) and by what [str(e)] gives. *)
Record Exn : Type := {
  exn_mro : list string;
  exn_str : string
}.

(** [isinstance(e, cls)], which is how an [except cls] clause matches. *)
Definition isinstance (e : Exn) (cls : string) : bool :=
  existsb (String.eqb cls) (exn_mro e).

Definition FileNotFoundError (msg : string) : Exn :=
  {| exn_mro := ["FileNotFoundError"; "OSError"; "Exception"; "BaseException"];
     exn_str := msg |}.

(** [pandas.errors.EmptyDataError] derives from [ValueError]. *)
Definition EmptyDataError (msg : string) : Exn :=
  {| exn_mro := ["EmptyDataError"; "ValueError"; "Exception"; "BaseException"];
     exn_str := msg |}.

Definition ValueError (msg : string) : Exn :=
  {| exn_mro := ["ValueError"; "Exception"; "BaseException"];
     exn_str := msg |}.

Definition KeyError (msg : string) : Exn :=
  {| exn_mro := ["KeyError"; "LookupError"; "Exception"; "BaseException"];
     exn_str := msg |}.

Definition AttributeError (msg : string) : Exn :=
  {| exn_mro := ["AttributeError"; "Exception"; "BaseException"];
     exn_str := msg |}.

(** [zipfile.BadZipFile], what reading a damaged [.xlsx] raises. *)
Definition BadZipFile (msg : string) : Exn :=
  {| exn_mro := ["BadZipFile"; "Exception"; "BaseException"];
     exn_str := msg |}.

Definition PermissionError (msg : string) : Exn :=
  {| exn_mro := ["PermissionError"; "OSError"; "Exception"; "BaseException"];
     exn_str := msg |}.

Inductive Outcome (A : Type) : Type :=
| Returns (a : A)
| Raises (e : Exn).

Arguments Returns {A} a.
Arguments Raises {A} e.

(** ** The spreadsheet library *)

Module Pandas.

(** A cell: a string, a number, or a missing value. *)
Inductive Cell : Type :=
| Str (s : string)
| Num (n : Z)
| NaN.

Record DataFrame : Type := {
  columns : list string;
  rows : list (list Cell)
}.

(** [name in df.columns] *)
Definition has_column (name : string) (df : DataFrame) : bool :=
  existsb (String.eqb name) (columns df).

(** The cells of [row] that stand under the label [name]. *)
Fixpoint pick (name : string) (cols : list string) (row : list Cell)
  : list Cell :=
  match cols, row with
  | c :: cols', x :: row' =>
      if String.eqb c name then x :: pick name cols' row'
      else pick name cols' row'
  | _, _ => []
  end.

(** [df[names]], called with labels that are all in [df.columns] (line
    397 checks them), so that no [KeyError] is raised. *)
Definition select (names : list string) (df : DataFrame) : DataFrame :=
  {| columns :=
       flat_map (fun n => filter (String.eqb n) (columns df)) names;
     rows :=
       map (fun row => flat_map (fun n => pick n (columns df) row) names)
           (rows df) |}.

(** [df.fillna(v)] *)
Definition fillna (v : Cell) (df : DataFrame) : DataFrame :=
  {| columns := columns df;
     rows := map (map (fun x => match x with NaN => v | _ => x end))
                 (rows df) |}.

(** [df.values.tolist()] *)
Definition tolist (df : DataFrame) : list (list Cell) := rows df.

(** Reading and writing spreadsheet files, over a file system [FS].
    - [read_excel path]: [pd.read_excel(path)]
    - [to_excel df path]: [df.to_excel(path, index=False)] *)
Record Excel (FS : Type) : Type := {
  read_excel : string -> FS -> Outcome DataFrame;
  to_excel : DataFrame -> string -> FS -> FS
}.

(** What [fillna('')] makes of a cell. *)
Definition blank (x : Cell) : Cell :=
  match x with
  | NaN => Str ""
  | _ => x
  end.

End Pandas.

(** ** class EbaySearcher: loading, accumulating and exporting *)

Module EbaySearcher.

Import Pandas.

(** The fields of the window that the three methods use: the loaded
    rows, the lines of the log window, and the items of the result
    table (a cell of the table holds an item or nothing). *)
Record Self : Type := {
  data : list (list Cell);
  log_window : list string;
  result_table : list (list (option string))
}.

(** [setColumnCount(7)] in [initUI]. *)
Definition column_count : nat := 7.

Definition export_columns : list string :=
  ["Title"; "Author"; "ISBN"; "Avg Sold Price"; "Sold Price Range";
   "Avg Shipping"; "Total Sellers"].

(** [EbaySearcher.log] *)
Definition log (self : Self) (message : string) : Self :=
  {| data := data self;
     log_window := (log_window self ++ [message])%list;
     result_table := result_table self |}.

Definition set_data (self : Self) (d : list (list Cell)) : Self :=
  {| data := d;
     log_window := log_window self;
     result_table := result_table self |}.

Definition set_table (self : Self) (t : list (list (option string))) : Self :=
  {| data := data self;
     log_window := log_window self;
     result_table := t |}.

(** [QTableWidget.item(row, col)] *)
Definition item (t : list (list (option string))) (row col : nat)
  : option string :=
  nth col (nth row t []) None.

Fixpoint update_nth {A : Type} (n : nat) (f : A -> A) (l : list A) : list A :=
  match l, n with
  | [], _ => []
  | x :: r, O => f x :: r
  | x :: r, S n' => x :: update_nth n' f r
  end.

(** [QTableWidget.setItem(row, col, QTableWidgetItem(text))]; outside the
    table nothing is set. *)
Definition set_item (row col : nat) (text : string)
           (t : list (list (option string))) : list (list (option string)) :=
  update_nth row (update_nth col (fun _ => Some text)) t.

(** [QTableWidget.insertRow(rowCount())] *)
Definition insert_row (t : list (list (option string)))
  : list (list (option string)) :=
  (t ++ [repeat None column_count])%list.

(** [enumerate(xs)] *)
Definition enumerate {A : Type} (xs : list A) : list (nat * A) :=
  combine (seq 0 (length xs)) xs.

(** The classes named by the [except] clauses that do not re-raise. *)
Definition handled_classes : list string :=
  ["FileNotFoundError"; "EmptyDataError"; "ValueError"; "KeyError";
   "AttributeError"].

Definition expected (e : Exn) : bool := existsb (isinstance e) handled_classes.

Definition has_required_columns (df : DataFrame) : bool :=
  has_column "Title" df && has_column "Author" df && has_column "ISBN" df.

Section WithLibraries.

(** [repr_list] is [repr] on a list of strings, as the f-strings of
    [update_table] format their argument. *)
Context {FS : Type} (X : Excel FS) (repr_list : list string -> string).

(** [EbaySearcher.process_file]: the [try] block. The call of
    [read_excel] is the statement that raises. *)
Definition process_file_try (file_path : string) (fs : FS) (self : Self)
  : Outcome Self :=
  match read_excel X file_path fs with
  | Raises e => Raises e
  | Returns df =>
      if negb (has_column "Title" df) || negb (has_column "Author" df)
         || negb (has_column "ISBN" df)
      then
        Returns
          (log self
             "Excel file must contain 'Title', 'Author', and 'ISBN' columns.")
      else
        let data' := fillna (Str "") (select ["Title"; "Author"; "ISBN"] df) in
        let self := set_data self (tolist data') in
        Returns
          (log self ("Loaded " ++ Py.str_of_nat (length (data self))
                               ++ " rows from the file."))
  end.

(** [EbaySearcher.process_file]: the [except] clauses, in order. The
    second component is the exception that leaves the method. *)
Definition process_file (file_path : string) (fs : FS) (self : Self)
  : Self * option Exn :=
  match process_file_try file_path fs self with
  | Returns self' => (self', None)
  | Raises e =>
      if isinstance e "FileNotFoundError" then
        (log self ("File not found: " ++ file_path), None)
      else if isinstance e "EmptyDataError" then
        (log self "The file is empty. Please select a non-empty Excel file.",
         None)
      else if isinstance e "ValueError" then
        (log self "Invalid file format. Please select a valid Excel file.",
         None)
      else if isinstance e "KeyError" || isinstance e "AttributeError" then
        (log self ("Data processing error: " ++ exn_str e), None)
      else if isinstance e "Exception" then
        (log self ("An unexpected error occurred: " ++ exn_str e), Some e)
      else (self, Some e)
  end.

(** [EbaySearcher.update_table]; the items of a result are strings, on
    which [str] is the identity. *)
Definition update_table (result : list string) (self : Self) : Self :=
  let self := log self ("Updating table with result: " ++ repr_list result) in
  let row_position := length (result_table self) in
  let t := insert_row (result_table self) in
  let t := fold_left (fun t ix => set_item row_position (fst ix) (snd ix) t)
                     (enumerate result) t in
  let self := set_table self t in
  log self ("Row inserted at position " ++ Py.str_of_nat row_position
              ++ " with data " ++ repr_list result).

(** [EbaySearcher.export_results]; [file_path] is what the save dialog
    returns, the empty string when the operator dismisses it. *)
Definition export_results (file_path : string) (fs : FS) (self : Self)
  : Self * FS :=
  let row_count := length (result_table self) in
  if Nat.eqb row_count 0 then
    (log self "No results to export.", fs)
  else
    let data :=
      map (fun row =>
             map (fun col =>
                    match item (result_table self) row col with
                    | Some text => text
                    | None => ""
                    end)
                 (seq 0 column_count))
          (seq 0 row_count) in
    let df := {| columns := export_columns;
                 rows := map (map Str) data |} in
    if Py.truthy file_path then
      (log self ("Results exported to " ++ file_path),
       to_excel X df file_path fs)
    else (self, fs).

(** The result table after the worker's results arrived in order. *)
Definition accumulate (results : list (list string)) (self : Self) : Self :=
  fold_left (fun s r => update_table r s) results self.

End WithLibraries.

End EbaySearcher.

(** ** class EbaySearcher: settings, browser set-up, starting and stopping *)

Module Shell.

Import Pandas EbaySearcher.

(** A [dict] from strings to strings, in insertion order. *)
Definition Dict : Type := list (string * string).

(** [d.get(key, default)] *)
Fixpoint dict_get (key default : string) (d : Dict) : string :=
  match d with
  | [] => default
  | (k, v) :: r => if String.eqb k key then v else dict_get key default r
  end.

(** [d[key] = value]: the value of a key already there is replaced in
    place, a new key goes to the end. *)
Fixpoint dict_set (key value : string) (d : Dict) : Dict :=
  match d with
  | [] => [(key, value)]
  | (k, v) :: r =>
      if String.eqb k key then (k, value) :: r
      else (k, v) :: dict_set key value r
  end.

(** [webdriver.Chrome(service=Service(path), options=options)]: the
    browser launched, known by the driver path and the arguments. *)
Record Chrome : Type := {
  service : string;
  arguments : list string
}.

(** A [Worker] object: what [Worker.__init__] stores. *)
Record WorkerObject : Type := {
  worker_driver : option Chrome;
  worker_data : list (list Cell);
  _running : bool
}.

(** [Worker.__init__] *)
Definition new_worker (driver : option Chrome) (data : list (list Cell))
  : WorkerObject :=
  {| worker_driver := driver; worker_data := data; _running := true |}.

(** [Worker.stop] *)
Definition stop (w : WorkerObject) : WorkerObject :=
  {| worker_driver := worker_driver w;
     worker_data := worker_data w;
     _running := false |}.

(** The window: the fields of [EbaySearcher.Self], the texts of the four
    line edits, the settings, [self.driver] (unset until a set-up
    succeeds) and [self.worker] ([None], or a reference to a worker
    object of the desktop). *)
Record Window : Type := {
  self : Self;
  user_data_dir_input : string;
  profile_dir_input : string;
  chromedriver_input : string;
  excel_file_input : string;
  settings : Dict;
  driver : option Chrome;
  worker : option nat
}.

(** Outside the window: the browsers launched and the worker objects
    created, oldest first. *)
Record Desktop : Type := {
  browsers : list Chrome;
  workers : list WorkerObject
}.

Definition with_self (win : Window) (s : Self) : Window :=
  {| self := s;
     user_data_dir_input := user_data_dir_input win;
     profile_dir_input := profile_dir_input win;
     chromedriver_input := chromedriver_input win;
     excel_file_input := excel_file_input win;
     settings := settings win;
     driver := driver win;
     worker := worker win |}.

Definition with_settings (win : Window) (d : Dict) : Window :=
  {| self := self win;
     user_data_dir_input := user_data_dir_input win;
     profile_dir_input := profile_dir_input win;
     chromedriver_input := chromedriver_input win;
     excel_file_input := excel_file_input win;
     settings := d;
     driver := driver win;
     worker := worker win |}.

Definition with_driver (win : Window) (c : Chrome) : Window :=
  {| self := self win;
     user_data_dir_input := user_data_dir_input win;
     profile_dir_input := profile_dir_input win;
     chromedriver_input := chromedriver_input win;
     excel_file_input := excel_file_input win;
     settings := settings win;
     driver := Some c;
     worker := worker win |}.

Definition with_worker (win : Window) (ref : nat) : Window :=
  {| self := self win;
     user_data_dir_input := user_data_dir_input win;
     profile_dir_input := profile_dir_input win;
     chromedriver_input := chromedriver_input win;
     excel_file_input := excel_file_input win;
     settings := settings win;
     driver := driver win;
     worker := Some ref |}.

(** [self.user_data_dir_input.setText(text)] and its three siblings. *)
Definition set_user_data_dir (win : Window) (text : string) : Window :=
  {| self := self win;
     user_data_dir_input := text;
     profile_dir_input := profile_dir_input win;
     chromedriver_input := chromedriver_input win;
     excel_file_input := excel_file_input win;
     settings := settings win;
     driver := driver win;
     worker := worker win |}.

Definition set_chromedriver (win : Window) (text : string) : Window :=
  {| self := self win;
     user_data_dir_input := user_data_dir_input win;
     profile_dir_input := profile_dir_input win;
     chromedriver_input := text;
     excel_file_input := excel_file_input win;
     settings := settings win;
     driver := driver win;
     worker := worker win |}.

Definition set_excel_file (win : Window) (text : string) : Window :=
  {| self := self win;
     user_data_dir_input := user_data_dir_input win;
     profile_dir_input := profile_dir_input win;
     chromedriver_input := chromedriver_input win;
     excel_file_input := text;
     settings := settings win;
     driver := driver win;
     worker := worker win |}.

(** [self.settings_file] *)
Definition settings_file : string := "settings.json".

Definition paths_error : string :=
  "Error: Please ensure all paths (user-data-dir, profile-directory, chromedriver) are provided.".

(** [EbaySearcher.setup_selenium] *)
Definition setup_selenium (win : Window) (desk : Desktop)
  : bool * Window * Desktop :=
  let user_data_dir := user_data_dir_input win in
  let profile_dir := profile_dir_input win in
  let chromedriver_path := chromedriver_input win in
  if negb (Py.truthy user_data_dir) || negb (Py.truthy profile_dir)
     || negb (Py.truthy chromedriver_path)
  then (false, with_self win (log (self win) paths_error), desk)
  else
    let options :=
      ["--start-maximized"; "--no-sandbox"; "--disable-dev-shm-usage";
       "user-data-dir=" ++ user_data_dir;
       "profile-directory=" ++ profile_dir] in
    let chrome := {| service := chromedriver_path; arguments := options |} in
    (true, with_driver win chrome,
     {| browsers := (browsers desk ++ [chrome])%list;
        workers := workers desk |}).

(** [EbaySearcher.search_ebay]; an empty list is false. *)
Definition search_ebay (win : Window) (desk : Desktop) : Window * Desktop :=
  match data (self win) with
  | [] =>
      (with_self win
         (log (self win) "No data to process. Please load an Excel file first."),
       desk)
  | _ :: _ =>
      let '(ok, win, desk) := setup_selenium win desk in
      if negb ok then
        (with_self win
           (log (self win)
                "Selenium setup failed. Please check the paths and try again."),
         desk)
      else
        let ref := length (workers desk) in
        (with_worker win ref,
         {| browsers := browsers desk;
            workers := (workers desk
                          ++ [new_worker (driver win) (data (self win))])%list |})
  end.

(** [EbaySearcher.cancel_search] *)
Definition cancel_search (win : Window) (desk : Desktop) : Window * Desktop :=
  match worker win with
  | Some ref =>
      (win, {| browsers := browsers desk;
               workers := update_nth ref stop (workers desk) |})
  | None => (win, desk)
  end.

(** [EbaySearcher.clear_input] *)
Definition clear_input (win : Window) : Window :=
  with_self win {| data := []; log_window := []; result_table := [] |}.

(** [EbaySearcher.on_search_complete] *)
Definition on_search_complete (s : Self) : Self := log s "Search completed.".

(** The settings file: [os.path.exists], [json.load] on the opened file
    and [json.dump] to it, for files that hold an object of strings. *)
Record Json (FS : Type) : Type := {
  path_exists : string -> FS -> bool;
  json_load : string -> FS -> Dict;
  json_dump : Dict -> string -> FS -> FS
}.

(** A store that gives back the object dumped to a file. This is a
    property that theorems may ask of a [Json]; nothing here assumes it. *)
Definition keeps_dump {FS : Type} (J : Json FS) : Prop :=
  forall d path fs,
    path_exists J path (json_dump J d path fs) = true
    /\ json_load J path (json_dump J d path fs) = d.

Section WithFiles.

Context {FS : Type} (J : Json FS) (X : Excel FS)
        (repr_list : list string -> string).

(** [EbaySearcher.load_settings] *)
Definition load_settings (fs : FS) : Dict :=
  if path_exists J settings_file fs then json_load J settings_file fs
  else [].

(** [EbaySearcher.save_settings] *)
Definition save_settings (win : Window) (fs : FS) : Window * FS :=
  let d := settings win in
  let d := dict_set "user_data_dir" (user_data_dir_input win) d in
  let d := dict_set "profile_directory" (profile_dir_input win) d in
  let d := dict_set "chromedriver_path" (chromedriver_input win) d in
  let d := dict_set "excel_file" (excel_file_input win) d in
  (with_settings win d, json_dump J d settings_file fs).

(** [EbaySearcher.__init__], with what [initUI] puts in the line edits,
    the table and the log window. *)
Definition init (fs : FS) (desk : Desktop) : Window * Desktop :=
  let d := load_settings fs in
  let win :=
    {| self := {| data := []; log_window := []; result_table := [] |};
       user_data_dir_input := dict_get "user_data_dir" "" d;
       profile_dir_input := dict_get "profile_directory" "" d;
       chromedriver_input := dict_get "chromedriver_path" "" d;
       excel_file_input := dict_get "excel_file" "" d;
       settings := d;
       driver := None;
       worker := None |} in
  let '(_, win, desk) := setup_selenium win desk in
  (with_self win (set_data (self win) []), desk).

(** [EbaySearcher.browse_user_data_dir]; the argument is what the
    dialog returns, empty when dismissed. *)
Definition browse_user_data_dir (user_data_dir : string)
           (win : Window) (fs : FS) : Window * FS :=
  if Py.truthy user_data_dir then
    save_settings (set_user_data_dir win user_data_dir) fs
  else (win, fs).

(** [EbaySearcher.browse_chromedriver] *)
Definition browse_chromedriver (chromedriver_path : string)
           (win : Window) (fs : FS) : Window * FS :=
  if Py.truthy chromedriver_path then
    save_settings (set_chromedriver win chromedriver_path) fs
  else (win, fs).

(** [EbaySearcher.browse_file]; the third component is the exception
    that [process_file] lets through. *)
Definition browse_file (file_path : string) (win : Window) (fs : FS)
  : Window * FS * option Exn :=
  if Py.truthy file_path then
    let win := set_excel_file win file_path in
    let win := with_self win (log (self win) ("Selected file: " ++ file_path)) in
    let '(win, fs) := save_settings win fs in
    let '(s, e) := process_file X file_path fs (self win) in
    (with_self win s, fs, e)
  else (win, fs, None).

(** The three connections made by [search_ebay]: what the window does
    with an event of the worker. Page loads and pauses are no signals. *)
Definition slot (e : Event) (s : Self) : Self :=
  match e with
  | update_result row => update_table repr_list row s
  | log_message msg => log s msg
  | search_complete => on_search_complete s
  | Navigate _ | Sleep _ => s
  end.

(** The window after the signals of a trace arrived, in order. *)
Definition deliver (tr : Trace) (s : Self) : Self :=
  fold_left (fun s e => slot e s) tr s.

End WithFiles.

End Shell.

(** ** Predicates on what a program emits *)

(** [emits P Q m]: from every world, every event [m] emits satisfies [P]
    and the value it returns satisfies [Q]. *)
Definition emits {W A} (P : Event -> Prop) (Q : A -> Prop) (m : M W A) : Prop :=
  forall w, Forall P (trace (m w)) /\ Q (value (m w)).

(** An event that is a log line or a pause: neither a result, a page load
    nor the completion signal. *)
Definition passive (e : Event) : Prop :=
  match e with
  | log_message _ | Sleep _ => True
  | _ => False
  end.

(** What a result row of the entry [(title, author, isbn)] looks like;
    the completion signal is excluded as well. *)
Definition row_of (entry : Worker.Entry) (e : Event) : Prop :=
  match e with
  | update_result row =>
      let '(title, author, isbn) := entry in
      length row = 7 /\ firstn 3 row = [title; author; isbn]
  | search_complete => False
  | _ => True
  end.

(** The events of the loop over [data]: rows of entries of [data], and
    no completion signal. *)
Definition row_in (data : list Worker.Entry) (e : Event) : Prop :=
  match e with
  | update_result row =>
      length row = 7 /\
      exists title author isbn,
        In (title, author, isbn) data /\ firstn 3 row = [title; author; isbn]
  | search_complete => False
  | _ => True
  end.


(** [Subseq xs ys]: [xs] is [ys] with some elements left out, the order
    kept. *)
Inductive Subseq {A : Type} : list A -> list A -> Prop :=
| Subseq_nil : Subseq [] []
| Subseq_skip : forall xs y ys, Subseq xs ys -> Subseq xs (y :: ys)
| Subseq_keep : forall x xs ys, Subseq xs ys -> Subseq (x :: xs) (x :: ys).

(** The three fields of an input row, as a result row starts with them. *)
Definition entry_fields (entry : Worker.Entry) : list string :=
  let '(title, author, isbn) := entry in [title; author; isbn].

(** A string that [strip] leaves as it is. *)
Definition stripped (s : string) : Prop := Py.strip s = s.

(** [pauses n m]: from every world, [m] sleeps at most [n] times. *)
Definition pauses {W A} (n : nat) (m : M W A) : Prop :=
  forall w, length (sleeps (trace (m w))) <= n.

(** A page of the queries of a row of [data] that is not empty. *)
Definition page_of (data : list Worker.Entry) (url : string) : Prop :=
  exists entry,
    In entry data /\ Worker.all_empty entry = false
    /\ (url = Worker.search_url (Worker.primary_query entry)
        \/ url = Worker.search_url (Worker.secondary_query entry)).

(** The rows of [data] that are not skipped. *)
Definition queried (data : list Worker.Entry) : list Worker.Entry :=
  filter (fun entry => negb (Worker.all_empty entry)) data.

(** The place of the first column labelled [name]. *)
Fixpoint position (name : string) (cols : list string) : nat :=
  match cols with
  | [] => 0
  | c :: r => if String.eqb c name then 0 else S (position name r)
  end.

(** The cell of [row] under the label [name], a missing value replaced by
    the empty string. *)
Definition cell_under (name : string) (cols : list string)
           (row : list Pandas.Cell) : Pandas.Cell :=
  match nth (position name cols) row Pandas.NaN with
  | Pandas.NaN => Pandas.Str ""
  | x => x
  end.

(** A result as the table shows it: seven cells, the fields beyond the
    seventh left out, the cells without a field empty. *)
Definition pad_row (result : list string) : list (option string) :=
  (map Some (firstn EbaySearcher.column_count result)
     ++ repeat None (EbaySearcher.column_count - length result))%list.

(** A result as the exported sheet shows it. *)
Definition pad_text (result : list string) : list string :=
  (firstn EbaySearcher.column_count result
     ++ repeat "" (EbaySearcher.column_count - length result))%list.

(** An event other than the cancellation line. *)
Definition uncancelled (e : Event) : Prop :=
  e <> log_message "Search cancelled.".

(** An event that, when it is a result, has stripped statistics. *)
Definition clean_row (e : Event) : Prop :=
  match e with
  | update_result row => Forall stripped (skipn 3 row)
  | _ => True
  end.

(** The three paths that a browser needs are all filled in. *)
Definition paths_filled (win : Shell.Window) : bool :=
  Py.truthy (Shell.user_data_dir_input win)
  && Py.truthy (Shell.profile_dir_input win)
  && Py.truthy (Shell.chromedriver_input win).

(** The browser that the line edits of a window ask for. *)
Definition chrome_of (win : Shell.Window) : Shell.Chrome :=
  {| Shell.service := Shell.chromedriver_input win;
     Shell.arguments :=
       ["--start-maximized"; "--no-sandbox"; "--disable-dev-shm-usage";
        "user-data-dir=" ++ Shell.user_data_dir_input win;
        "profile-directory=" ++ Shell.profile_dir_input win] |}.

(** ** A scripted marketplace, for running the worker on concrete inputs *)

Module Fixture.

(** The marketplace answers a URL with no statistics container at all
    ([None]) or with a page holding some of the labelled metrics. *)
Definition Site : Type := string -> option (list (string * string)).

(** The browser shows the page last navigated to; the operator presses
    Cancel during the pause that brings [patience] down to zero. *)
Record World : Type := {
  page : string;
  patience : nat
}.

Fixpoint lookup (key : string) (kvs : list (string * string)) : option string :=
  match kvs with
  | [] => None
  | (k, v) :: r => if String.eqb k key then Some v else lookup key r
  end.

Definition scripted (site : Site) : Env World := {|
  running := fun w => negb (Nat.eqb (patience w) 0);
  driver_get := fun url w => {| page := url; patience := patience w |};
  wait_presence := fun _ _ w =>
    (match site (page w) with Some _ => true | None => false end, w);
  wait_visibility := fun _ xpath w =>
    (match site (page w) with
     | Some metrics => lookup xpath metrics
     | None => None
     end, w);
  random_uniform := fun a b w => (Qmake (a + b) 2, w);
  time_sleep := fun _ w => {| page := page w; patience := pred (patience w) |};
  process_events := fun w => w
|}.

Definition start (n : nat) : World := {| page := ""; patience := n |}.

(** No query finds anything. *)
Definition barren : Site := fun _ => None.

(** Only the query by title and author finds the book, with one metric. *)
Definition dune_site : Site := fun url =>
  if String.eqb url (Worker.search_url "Dune Frank Herbert")
  then Some [(Worker.xpath_avg_price, " $12.50 ")]
  else None.

(** Every query finds a page whose metrics are all blank. *)
Definition blank_site : Site := fun _ =>
  Some [(Worker.xpath_avg_price, " "); (Worker.xpath_price_range, "");
        (Worker.xpath_avg_shipping, ""); (Worker.xpath_total_sellers, "")].

Definition dune : Worker.Entry := ("Dune", "Frank Herbert", "9780441013593").
Definition dune_no_isbn : Worker.Entry := ("Dune", "Frank Herbert", "").
Definition isbn_only : Worker.Entry := ("", "", "9780441013593").
Definition empty_row : Worker.Entry := ("", "", "").

(** Spreadsheet files kept in memory: a file holds the table written to
    it. *)
Definition Files : Type := list (string * Pandas.DataFrame).

(** How the plain store below reads a table: as it was written, but for
    the empty strings, which come back as missing values. *)
Definition read_back (df : Pandas.DataFrame) : Pandas.DataFrame :=
  {| Pandas.columns := Pandas.columns df;
     Pandas.rows :=
       map (map (fun x => match x with
                          | Pandas.Str EmptyString => Pandas.NaN
                          | _ => x
                          end))
           (Pandas.rows df) |}.

Fixpoint find_file (path : string) (fs : Files) : option Pandas.DataFrame :=
  match fs with
  | [] => None
  | (p, df) :: r => if String.eqb p path then Some df else find_file path r
  end.

Definition memory_excel : Pandas.Excel Files := {|
  Pandas.read_excel := fun path fs =>
    match find_file path fs with
    | Some df => Returns (read_back df)
    | None => Raises (FileNotFoundError path)
    end;
  Pandas.to_excel := fun df path fs => (path, df) :: fs
|}.

(** The number that a text made of digits only stands for. *)
Fixpoint digits (s : string) (acc : Z) : option Z :=
  match s with
  | EmptyString => Some acc
  | String c r =>
      let n := nat_of_ascii c in
      if Nat.leb 48 n && Nat.leb n 57
      then digits r (10 * acc + Z.of_nat (n - 48))%Z
      else None
  end.

(** A reader that infers the type of a cell: the empty string and the
    texts NA and None come back as missing values, a text made of
    digits comes back as a number. *)
Definition infer (x : Pandas.Cell) : Pandas.Cell :=
  match x with
  | Pandas.Str EmptyString => Pandas.NaN
  | Pandas.Str s =>
      if String.eqb s "NA" || String.eqb s "None" then Pandas.NaN
      else match digits s 0 with
           | Some n => Pandas.Num n
           | None => x
           end
  | _ => x
  end.

Definition inferring_excel : Pandas.Excel Files := {|
  Pandas.read_excel := fun path fs =>
    match find_file path fs with
    | Some df =>
        Returns {| Pandas.columns := Pandas.columns df;
                   Pandas.rows := map (map infer) (Pandas.rows df) |}
    | None => Raises (FileNotFoundError path)
    end;
  Pandas.to_excel := fun df path fs => (path, df) :: fs
|}.

Definition orwell_result : list string :=
  ["1984"; "George Orwell"; "0451524934"; "$7.99"; "NA"; ""; "12"].

(** A library whose reading raises [e] whatever the file. *)
Definition failing_excel (e : Exn) : Pandas.Excel unit := {|
  Pandas.read_excel := fun _ _ => Raises e;
  Pandas.to_excel := fun _ _ fs => fs
|}.

Definition show_list (xs : list string) : string :=
  "[" ++ String.concat ", " xs ++ "]".

Definition fresh : EbaySearcher.Self := {|
  EbaySearcher.data := [];
  EbaySearcher.log_window := [];
  EbaySearcher.result_table := []
|}.

Definition dune_result : list string :=
  ["Dune"; "Frank Herbert"; ""; "$12.50"; ""; ""; ""].

(** A sheet without the identifier column. *)
Definition two_columns : Pandas.DataFrame := {|
  Pandas.columns := ["Title"; "Author"];
  Pandas.rows := [[Pandas.Str "Dune"; Pandas.Str "Frank Herbert"]]
|}.

(** A sheet with a numeric identifier and a missing author. *)
Definition book_sheet : Pandas.DataFrame := {|
  Pandas.columns := ["ISBN"; "Title"; "Notes"; "Author"];
  Pandas.rows := [[Pandas.Num 9780441013593; Pandas.Str "Dune";
                   Pandas.Str "paperback"; Pandas.NaN]]
|}.

End Fixture.

(** ** A desktop in memory, for running the window on concrete inputs *)

Module Bench.

Import Shell.

(** Files kept in memory: the settings objects dumped, by path. *)
Definition Disk : Type := list (string * Dict).

Fixpoint find_dump (path : string) (fs : Disk) : option Dict :=
  match fs with
  | [] => None
  | (p, d) :: r => if String.eqb p path then Some d else find_dump path r
  end.

Definition memory_json : Json Disk := {|
  path_exists := fun path fs =>
    match find_dump path fs with Some _ => true | None => false end;
  json_load := fun path fs =>
    match find_dump path fs with Some d => d | None => [] end;
  json_dump := fun d path fs => (path, d) :: fs
|}.

(** A library that finds no spreadsheet at all. *)
Definition no_excel : Pandas.Excel Disk := {|
  Pandas.read_excel := fun path _ => Raises (FileNotFoundError path);
  Pandas.to_excel := fun _ _ fs => fs
|}.

Definition nothing_running : Desktop := {| browsers := []; workers := [] |}.

(** A window with its three paths filled in and one row loaded. *)
Definition ready : Window := {|
  self := {| EbaySearcher.data :=
               [[Pandas.Str "Dune"; Pandas.Str "Frank Herbert"; Pandas.Str ""]];
             EbaySearcher.log_window := [];
             EbaySearcher.result_table := [] |};
  user_data_dir_input := "C:/chrome/data";
  profile_dir_input := "Profile 1";
  chromedriver_input := "C:/chromedriver.exe";
  excel_file_input := "";
  settings := [("theme", "dark")];
  driver := None;
  worker := None
|}.

(** The same window before the profile name was typed in. *)
Definition no_profile : Window := {|
  self := self ready;
  user_data_dir_input := "C:/chrome/data";
  profile_dir_input := "";
  chromedriver_input := "C:/chromedriver.exe";
  excel_file_input := "";
  settings := [];
  driver := None;
  worker := None
|}.

(** The scripted marketplace with an operator who never cancels. *)
Definition tireless (site : Fixture.Site) : Env Fixture.World := {|
  running := fun _ => true;
  driver_get := driver_get (Fixture.scripted site);
  wait_presence := wait_presence (Fixture.scripted site);
  wait_visibility := wait_visibility (Fixture.scripted site);
  random_uniform := random_uniform (Fixture.scripted site);
  time_sleep := time_sleep (Fixture.scripted site);
  process_events := process_events (Fixture.scripted site)
|}.

End Bench.
(** ** Reasoning about monadic programs *)

Lemma emits_ret {W A} (P : Event -> Prop) (Q : A -> Prop) (a : A) :
  Q a -> emits P Q (ret (W := W) a).
Proof. intros H w; split; [constructor | exact H]. Qed.

Lemma emits_emit {W} (P : Event -> Prop) (e : Event) :
  P e -> emits P (fun _ => True) (emit (W := W) e).
Proof. intros He w; split; [repeat constructor; exact He | exact I]. Qed.

Lemma emits_call {W A} (P : Event -> Prop) (f : W -> A * W) :
  emits P (fun _ => True) (call f).
Proof. intros w; unfold call, trace; destruct (f w); split; simpl; auto. Qed.

Lemma emits_exec {W} (P : Event -> Prop) (f : W -> W) :
  emits P (fun _ => True) (exec f).
Proof. intros w; split; simpl; auto. Qed.

Lemma emits_peek {W A} (P : Event -> Prop) (f : W -> A) :
  emits P (fun _ => True) (peek f).
Proof. intros w; split; simpl; auto. Qed.

Lemma emits_bind {W A B} (P : Event -> Prop) (Q1 : A -> Prop) (Q2 : B -> Prop)
      (m : M W A) (f : A -> M W B) :
  emits P Q1 m -> (forall a, Q1 a -> emits P Q2 (f a)) -> emits P Q2 (bind m f).
Proof.
  intros Hm Hf w. unfold bind.
  destruct (Hm w) as [Ht Hv]. unfold trace, value in *.
  destruct (m w) as [[a w1] t1]; simpl in *.
  destruct (Hf a Hv w1) as [Ht2 Hv2].
  destruct (f a w1) as [[b w2] t2]; simpl in *.
  split; [apply Forall_app; split; assumption | assumption].
Qed.

Lemma emits_mono {W A} (P P' : Event -> Prop) (Q : A -> Prop) (m : M W A) :
  (forall e, P e -> P' e) -> emits P Q m -> emits P' Q m.
Proof.
  intros HP H w. destruct (H w) as [Ht Hv]. split; [|exact Hv].
  eapply Forall_impl; [exact HP | exact Ht].
Qed.

(** One step of a proof of [emits], following the shape of the program. *)
Ltac emits_step :=
  lazymatch goal with
  | |- emits _ _ (bind _ _) => eapply emits_bind; [ | intros ? ? ]
  | |- emits _ _ (ret _) => apply emits_ret
  | |- emits _ _ (emit _) => apply emits_emit
  | |- emits _ _ (call _) => apply emits_call
  | |- emits _ _ (exec _) => apply emits_exec
  | |- emits _ _ (peek _) => apply emits_peek
  | |- emits _ _ (Worker.log _) => unfold Worker.log
  | |- emits _ _ (if ?b then _ else _) => destruct b
  end.

(** The result of a [bind], read off the results of its two parts. *)
Lemma bind_run {W A B} (m : M W A) (f : A -> M W B) (w : W) :
  bind m f w
  = (value (f (value (m w)) (world (m w))),
     world (f (value (m w)) (world (m w))),
     (trace (m w) ++ trace (f (value (m w)) (world (m w))))%list).
Proof.
  unfold bind, value, world, trace.
  destruct (m w) as [[a w1] t1]; simpl.
  destruct (f a w1) as [[b w2] t2]; reflexivity.
Qed.

Lemma bind_trace {W A B} (m : M W A) (f : A -> M W B) (w : W) :
  trace (bind m f w)
  = (trace (m w) ++ trace (f (value (m w)) (world (m w))))%list.
Proof. rewrite bind_run; reflexivity. Qed.

Lemma bind_value {W A B} (m : M W A) (f : A -> M W B) (w : W) :
  value (bind m f w) = value (f (value (m w)) (world (m w))).
Proof. rewrite bind_run; reflexivity. Qed.

Lemma bind_world {W A B} (m : M W A) (f : A -> M W B) (w : W) :
  world (bind m f w) = world (f (value (m w)) (world (m w))).
Proof. rewrite bind_run; reflexivity. Qed.

Lemma run_eta {W A} (r : A * W * Trace) : r = (value r, world r, trace r).
Proof. destruct r as [[a w] t]; reflexivity. Qed.

Lemma In_results (row : list string) (tr : Trace) :
  In (update_result row) tr <-> In row (results tr).
Proof.
  induction tr as [|e tr IH]; simpl; [tauto|].
  destruct e; simpl; rewrite <- IH; split; intros H;
    try (right; exact H);
    try (destruct H as [H|H]; [discriminate H | exact H]).
  - destruct H as [H|H]; [inversion H; auto | auto].
  - destruct H as [H|H]; [subst; auto | auto].
Qed.

(** Projections of a trace distribute over concatenation. *)

Lemma logs_app (t1 t2 : Trace) : logs (t1 ++ t2)%list = (logs t1 ++ logs t2)%list.
Proof.
  induction t1 as [|e t1 IH]; simpl; [reflexivity|].
  destruct e; simpl; rewrite IH; reflexivity.
Qed.

Lemma results_app (t1 t2 : Trace) :
  results (t1 ++ t2)%list = (results t1 ++ results t2)%list.
Proof.
  induction t1 as [|e t1 IH]; simpl; [reflexivity|].
  destruct e; simpl; rewrite IH; reflexivity.
Qed.

Lemma navigations_app (t1 t2 : Trace) :
  navigations (t1 ++ t2)%list = (navigations t1 ++ navigations t2)%list.
Proof.
  induction t1 as [|e t1 IH]; simpl; [reflexivity|].
  destruct e; simpl; rewrite IH; reflexivity.
Qed.

Lemma sleeps_app (t1 t2 : Trace) :
  sleeps (t1 ++ t2)%list = (sleeps t1 ++ sleeps t2)%list.
Proof.
  induction t1 as [|e t1 IH]; simpl; [reflexivity|].
  destruct e; simpl; rewrite IH; reflexivity.
Qed.

Lemma completions_app (t1 t2 : Trace) :
  completions (t1 ++ t2)%list = completions t1 + completions t2.
Proof.
  induction t1 as [|e t1 IH]; simpl; [reflexivity|].
  destruct e; simpl; rewrite IH; reflexivity.
Qed.

Lemma passive_results (tr : Trace) : Forall passive tr -> results tr = [].
Proof.
  induction 1 as [|e t He _ IH]; simpl; [reflexivity|].
  destruct e; simpl in *; try contradiction; assumption.
Qed.

Lemma passive_navigations (tr : Trace) : Forall passive tr -> navigations tr = [].
Proof.
  induction 1 as [|e t He _ IH]; simpl; [reflexivity|].
  destruct e; simpl in *; try contradiction; assumption.
Qed.

Lemma truthy_nonempty (s : string) : Py.truthy s = true <-> s <> "".
Proof. destruct s; simpl; split; congruence. Qed.

Lemma truthy_empty (s : string) : Py.truthy s = false <-> s = "".
Proof. destruct s; simpl; split; congruence. Qed.

Lemma any_exists (xs : list string) :
  Py.any xs = true <-> exists s, In s xs /\ s <> "".
Proof.
  unfold Py.any. rewrite existsb_exists.
  split; intros [s [Hin Hs]]; exists s; split; auto; apply truthy_nonempty; auto.
Qed.

Lemma any_none (xs : list string) :
  Py.any xs = false <-> forall s, In s xs -> s = "".
Proof.
  unfold Py.any. rewrite <- not_true_iff_false, existsb_exists. split.
  - intros H s Hin. apply truthy_empty.
    destruct (Py.truthy s) eqn:Hs; [exfalso; apply H; eauto | reflexivity].
  - intros H [s [Hin Hs]]. rewrite (H s Hin) in Hs. discriminate.
Qed.

Section WorkerFacts.

Context {W : Type} (E : Env W).
Import Worker.

(** A field lookup whose element shows up returns its stripped text and
    emits nothing. *)
Lemma get_aggregate_value_found xpath w text w1 :
  wait_visibility E 1 xpath w = (Some text, w1) ->
  get_aggregate_value E xpath w = (Py.strip text, w1, []).
Proof.
  intros H. unfold get_aggregate_value, bind, call. rewrite H. reflexivity.
Qed.

Lemma get_aggregate_value_missing xpath w w1 d w2 :
  wait_visibility E 1 xpath w = (None, w1) ->
  random_uniform E 3 9 w1 = (d, w2) ->
  get_aggregate_value E xpath w
  = ("", time_sleep E d w2,
     [log_message (sleeping_msg d); Sleep d;
      log_message (could_not_find_msg xpath)]).
Proof.
  intros H Hd. unfold get_aggregate_value, bind, call. rewrite H.
  rewrite Hd. reflexivity.
Qed.

Lemma get_aggregate_value_passive xpath :
  emits passive (fun _ => True) (get_aggregate_value E xpath).
Proof.
  intros w. unfold get_aggregate_value, bind, call, trace, value.
  destruct (wait_visibility E 1 xpath w) as [[text|] w1]; simpl.
  - split; auto.
  - destruct (random_uniform E 3 9 w1) as [d w2]; simpl.
    split; auto. repeat constructor.
Qed.

Lemma aggregate_values_passive :
  emits passive (fun fields => length fields = 4) (aggregate_values E).
Proof.
  unfold aggregate_values.
  repeat (eapply emits_bind; [apply get_aggregate_value_passive | intros ? _]).
  apply emits_ret. reflexivity.
Qed.

(** [perform_search] when the container never shows up within the wait. *)
Lemma perform_search_timeout q title author isbn w w0 :
  wait_presence E 19 container (driver_get E (search_url q) w) = (false, w0) ->
  perform_search E q title author isbn w
  = (false, w0,
     [Navigate (search_url q);
      log_message ("Navigating to URL: " ++ search_url q);
      log_message ("No results found for " ++ q ++ ". Skipping.")]).
Proof.
  intros H. unfold perform_search, log, bind, call, exec, emit, ret, container in *.
  cbv beta iota zeta. rewrite H. reflexivity.
Qed.

(** [perform_search] when the container shows up. *)
Lemma perform_search_present q title author isbn w w0 fields w1 tr :
  wait_presence E 19 container (driver_get E (search_url q) w) = (true, w0) ->
  aggregate_values E w0 = (fields, w1, tr) ->
  perform_search E q title author isbn w
  = (Py.any fields, w1,
     [Navigate (search_url q);
      log_message ("Navigating to URL: " ++ search_url q);
      log_message "Aggregates section found."]
     ++ tr
     ++ log_message (data_extracted_msg fields)
     :: (if Py.any fields
         then [log_message (found_msg title author isbn);
               update_result ([title; author; isbn] ++ fields)]
         else [log_message ("No valid data found for " ++ q ++ ". Skipping.")]))%list.
Proof.
  intros H Hf.
  unfold perform_search, log, bind, call, exec, emit, ret, container in *.
  cbv beta iota zeta. rewrite H. cbv beta iota. rewrite Hf.
  destruct (Py.any fields); reflexivity.
Qed.

End WorkerFacts.

(** ** The loop of [Worker.run], block by block *)

Section WorkerLoop.

Context {W : Type} (E : Env W).
Import Worker.

Lemma passive_row_of entry e : passive e -> row_of entry e.
Proof. destruct e, entry as [[? ?] ?]; simpl; tauto. Qed.

Lemma perform_search_rows q title author isbn :
  emits (row_of (title, author, isbn)) (fun _ => True)
        (perform_search E q title author isbn).
Proof.
  unfold perform_search. cbv zeta.
  do 4 (emits_step; [repeat emits_step; simpl; auto | ]).
  emits_step.
  - emits_step; [repeat emits_step; simpl; auto | ].
    emits_step.
    + eapply emits_mono; [apply passive_row_of | apply aggregate_values_passive].
    + emits_step; [repeat emits_step; simpl; auto | ].
      emits_step; repeat emits_step; simpl in *; auto.
  - repeat emits_step; simpl; auto.
Qed.

Lemma perform_search_navigations q title author isbn w :
  navigations (trace (perform_search E q title author isbn w)) = [search_url q].
Proof.
  destruct (wait_presence E 19 container (driver_get E (search_url q) w))
    as [[|] w0] eqn:Hp.
  - destruct (aggregate_values_passive E w0) as [Ht _].
    rewrite (@perform_search_present _ E q title author isbn w w0 _ _ _ Hp (run_eta _)).
    unfold trace at 1. simpl. rewrite navigations_app.
    rewrite (passive_navigations Ht). simpl.
    destruct (Py.any _); reflexivity.
  - rewrite (@perform_search_timeout _ E q title author isbn w w0 Hp). reflexivity.
Qed.

(** A failed attempt emits no row; a successful one emits one row, made
    of the entry and four fields of which one at least is not empty. *)
Lemma perform_search_results q title author isbn w :
  let r := perform_search E q title author isbn w in
  (value r = false /\ results (trace r) = [])
  \/ (value r = true /\
      exists fields, length fields = 4 /\ Py.any fields = true /\
                     results (trace r) = [([title; author; isbn] ++ fields)%list]).
Proof.
  cbv zeta.
  destruct (wait_presence E 19 container (driver_get E (search_url q) w))
    as [[|] w0] eqn:Hp.
  - destruct (aggregate_values_passive E w0) as [Ht Hl].
    destruct (aggregate_values E w0) as [[fields w1] tr] eqn:Hf.
    unfold trace, value in Ht, Hl; simpl in Ht, Hl.
    rewrite (@perform_search_present _ E q title author isbn w w0 _ _ _ Hp Hf).
    unfold trace, value. simpl.
    rewrite results_app, (passive_results Ht). simpl.
    destruct (Py.any fields) eqn:Hany.
    + right. split; [reflexivity|]. exists fields. repeat split; auto.
    + left. split; reflexivity.
  - rewrite (@perform_search_timeout _ E q title author isbn w w0 Hp).
    left. split; reflexivity.
Qed.

Lemma attempts_trace entry w :
  trace (attempts E entry w)
  = (trace (primary_attempt E entry w)
     ++ if value (primary_attempt E entry w) then []
        else trace (secondary_attempt E entry (world (primary_attempt E entry w))))%list.
Proof.
  unfold attempts. rewrite bind_trace. f_equal.
  destruct (value _); simpl; [reflexivity|].
  rewrite bind_trace. simpl. apply app_nil_r.
Qed.

Lemma attempts_rows entry :
  emits (row_of entry) (fun _ => True) (attempts E entry).
Proof.
  unfold attempts, primary_attempt, secondary_attempt.
  destruct entry as [[title author] isbn].
  emits_step; [apply perform_search_rows | ].
  emits_step; simpl.
  - emits_step; [apply perform_search_rows | ]. emits_step. exact I.
  - emits_step. exact I.
Qed.

Lemma pause_run w :
  let d := fst (random_uniform E 15 40 w) in
  pause E w
  = (tt, time_sleep E d (snd (random_uniform E 15 40 w)),
     [log_message (sleeping_msg d); Sleep d]).
Proof.
  cbv zeta. unfold pause, log, bind, call, exec, emit.
  destruct (random_uniform E 15 40 w) as [d w1]. reflexivity.
Qed.

Lemma process_trace entry w :
  trace (process E entry w)
  = (log_message (processing_msg entry)
     :: trace (attempts E entry w)
     ++ trace (pause E (world (attempts E entry w))))%list.
Proof.
  unfold process. rewrite !bind_trace.
  change (world (log (processing_msg entry) w)) with w.
  change (trace (log (processing_msg entry) w))
    with [log_message (processing_msg entry)].
  simpl. rewrite app_nil_r. reflexivity.
Qed.

Lemma process_rows entry :
  emits (row_of entry) (fun _ => True) (process E entry).
Proof.
  unfold process.
  emits_step; [repeat emits_step; destruct entry as [[? ?] ?]; simpl; auto | ].
  emits_step; [apply attempts_rows | ].
  emits_step; [ | emits_step].
  unfold pause. repeat emits_step; destruct entry as [[? ?] ?]; simpl; auto.
Qed.

Lemma iteration_cancelled entry w :
  running E w = false ->
  iteration E entry w = (Break, w, [log_message "Search cancelled."]).
Proof.
  intros H. unfold iteration, bind, peek. rewrite H. reflexivity.
Qed.

Lemma iteration_skipped entry w :
  running E w = true -> all_empty entry = true ->
  iteration E entry w = (Next, w, [log_message "Skipping empty line."]).
Proof.
  intros H He. unfold iteration, bind, peek. rewrite H. simpl. rewrite He.
  reflexivity.
Qed.

Lemma iteration_processed entry w :
  running E w = true -> all_empty entry = false ->
  iteration E entry w
  = (Next, world (process E entry w), trace (process E entry w)).
Proof.
  intros H He. unfold iteration, bind, peek. rewrite H. simpl. rewrite He.
  destruct (process E entry w) as [[[] w1] t1]. simpl.
  rewrite app_nil_r. reflexivity.
Qed.

Lemma iteration_rows entry :
  emits (row_of entry) (fun _ => True) (iteration E entry).
Proof.
  unfold iteration.
  emits_step; [emits_step | ].
  emits_step; simpl.
  - repeat emits_step; destruct entry as [[? ?] ?]; simpl; auto.
  - emits_step.
    + repeat emits_step; destruct entry as [[? ?] ?]; simpl; auto.
    + emits_step; [apply process_rows | emits_step; exact I].
Qed.

(** A loop that ran off the end of [pre] goes on with what follows. *)
Lemma for_each_app pre rest w w1 tr1 :
  for_each E pre w = (Next, w1, tr1) ->
  for_each E (pre ++ rest)%list w
  = (value (for_each E rest w1), world (for_each E rest w1),
     (tr1 ++ trace (for_each E rest w1))%list).
Proof.
  revert w tr1. induction pre as [|entry pre IH]; intros w tr1 H.
  - simpl in H. inversion H; subst. simpl. apply run_eta.
  - simpl in *. unfold bind in *.
    destruct (iteration E entry w) as [[c w2] t2].
    destruct c.
    + destruct (for_each E pre w2) as [[c' w3] t3] eqn:Hpre.
      inversion H; subst.
      rewrite (IH _ _ Hpre). rewrite app_assoc. reflexivity.
    + discriminate H.
Qed.

Lemma row_of_row_in data entry e :
  In entry data -> row_of entry e -> row_in data e.
Proof.
  intros Hin. destruct e; simpl; auto.
  destruct entry as [[title author] isbn]. intros [Hl Hf].
  split; [exact Hl | eauto].
Qed.

Lemma for_each_rows data rest :
  incl rest data -> emits (row_in data) (fun _ => True) (for_each E rest).
Proof.
  induction rest as [|entry rest IH]; intros Hincl; simpl.
  - emits_step. exact I.
  - emits_step.
    + eapply emits_mono; [ | apply iteration_rows].
      intros e. apply row_of_row_in. apply Hincl. left. reflexivity.
    + destruct a.
      * apply IH. intros x Hx. apply Hincl. right. exact Hx.
      * emits_step. exact I.
Qed.

Lemma row_in_completions data tr :
  Forall (row_in data) tr -> completions tr = 0.
Proof.
  induction 1 as [|e t He _ IH]; simpl; [reflexivity|].
  destruct e; simpl in *; try contradiction; assumption.
Qed.

Lemma run_run data w :
  run E data w
  = (tt, world (for_each E data w),
     (trace (for_each E data w) ++ [search_complete])%list).
Proof. unfold run. rewrite bind_run. reflexivity. Qed.

End WorkerLoop.

(** ** Properties of the search loop *)

Section WorkerClaims.

Context {W : Type} (E : Env W).
Import Worker.

Lemma primary_attempt_navigations entry w :
  navigations (trace (primary_attempt E entry w))
  = [search_url (primary_query entry)].
Proof.
  destruct entry as [[title author] isbn].
  apply perform_search_navigations.
Qed.

Lemma secondary_attempt_navigations entry w :
  navigations (trace (secondary_attempt E entry w))
  = [search_url (secondary_query entry)].
Proof.
  destruct entry as [[title author] isbn].
  apply perform_search_navigations.
Qed.

Lemma iteration_navigations entry w :
  running E w = true -> all_empty entry = false ->
  navigations (trace (iteration E entry w))
  = search_url (primary_query entry)
    :: (if value (primary_attempt E entry w) then []
        else [search_url (secondary_query entry)]).
Proof.
  intros Hr He. rewrite (@iteration_processed _ E entry w Hr He).
  unfold trace at 1. simpl. rewrite process_trace. simpl.
  rewrite navigations_app, attempts_trace, navigations_app.
  rewrite primary_attempt_navigations, pause_run.
  unfold trace at 2. simpl. rewrite app_nil_r.
  destruct (value (primary_attempt E entry w)); simpl; [reflexivity|].
  rewrite secondary_attempt_navigations. reflexivity.
Qed.

(** C1, amended. A row that is processed gets its second query, by title
    and author, exactly when its first query found nothing, whether or
    not the first query was the identifier: the pages loaded for the row
    are the first query's page and, after a failure, the page of the
    title-and-author query. *)
Theorem secondary_attempt_iff_primary_failed (title author isbn : string) (w : W) :
  running E w = true ->
  all_empty (title, author, isbn) = false ->
  let entry := (title, author, isbn) in
  let visited := navigations (trace (iteration E entry w)) in
  visited
  = search_url (if Py.truthy isbn then isbn else title ++ " " ++ author)
    :: (if value (primary_attempt E entry w) then []
        else [search_url (title ++ " " ++ author)])
  /\ (length visited = 2 <-> value (primary_attempt E entry w) = false)
  /\ (isbn = "" -> value (primary_attempt E entry w) = false ->
      visited = [search_url (title ++ " " ++ author);
                 search_url (title ++ " " ++ author)]).
Proof.
  intros Hr He entry visited.
  assert (Hv : visited
               = search_url (primary_query entry)
                 :: (if value (primary_attempt E entry w) then []
                     else [search_url (secondary_query entry)]))
    by (apply iteration_navigations; assumption).
  split; [exact Hv|]. split.
  - rewrite Hv. destruct (value (primary_attempt E entry w)); simpl;
      split; intros H; congruence.
  - intros Hi Hf. rewrite Hv, Hf. subst isbn. reflexivity.
Qed.

Lemma perform_search_shown q title author isbn w w0 :
  wait_presence E 19 container (driver_get E (search_url q) w) = (true, w0) ->
  let r := perform_search E q title author isbn w in
  let fields := value (aggregate_values E w0) in
  value r = Py.any fields
  /\ results (trace r)
     = if Py.any fields then [([title; author; isbn] ++ fields)%list] else [].
Proof.
  intros Hp. cbv zeta.
  destruct (aggregate_values_passive E w0) as [Ht _].
  destruct (aggregate_values E w0) as [[fields w1] tr] eqn:Hf.
  unfold trace in Ht; simpl in Ht.
  rewrite (@perform_search_present _ E q title author isbn w w0 _ _ _ Hp Hf).
  unfold value, trace. simpl. split; [reflexivity|].
  rewrite results_app, (passive_results Ht). simpl.
  destruct (Py.any fields); reflexivity.
Qed.

(** C2. An attempt whose container shows up emits a result exactly when
    one of the four extracted fields is not the empty string, and then
    succeeds; with four empty fields it fails and emits nothing. An
    attempt whose container does not show up fails and emits nothing. *)
Theorem summary_emitted_iff_some_field (q title author isbn : string) (w : W) :
  let r := perform_search E q title author isbn w in
  let shown := wait_presence E 19 container (driver_get E (search_url q) w) in
  let fields := value (aggregate_values E (snd shown)) in
  (fst shown = true ->
     length fields = 4
     /\ ((exists row, In (update_result row) (trace r))
         <-> (exists f, In f fields /\ f <> ""))
     /\ value r = Py.any fields
     /\ results (trace r)
        = (if Py.any fields then [([title; author; isbn] ++ fields)%list] else [])
     /\ ((forall f, In f fields -> f = "") ->
         value r = false /\ results (trace r) = []))
  /\ (fst shown = false -> value r = false /\ results (trace r) = []).
Proof.
  cbv zeta.
  destruct (wait_presence E 19 container (driver_get E (search_url q) w))
    as [present w0] eqn:Hp.
  simpl. split; intros Hs; subst present.
  - destruct (@perform_search_shown q title author isbn w w0 Hp) as [Hv Hres].
    destruct (aggregate_values_passive E w0) as [_ Hl].
    split; [exact Hl|]. split; [|split; [exact Hv|split; [exact Hres|]]].
    + rewrite <- any_exists. split.
      * intros [row Hin]. apply In_results in Hin. rewrite Hres in Hin.
        destruct (Py.any _); [reflexivity | destruct Hin].
      * intros Hany. eexists. apply In_results. rewrite Hres, Hany.
        left. reflexivity.
    + intros Hall. apply any_none in Hall. rewrite Hv, Hres, Hall.
      split; reflexivity.
  - rewrite (@perform_search_timeout _ E q title author isbn w w0 Hp).
    split; reflexivity.
Qed.

(** C3. The completion signal is emitted exactly once by every run. If
    the flag is found cleared when the loop comes to a row, the run ends
    there: what it emitted up to that row, then the cancellation log line,
    then the completion signal; no page is loaded and no result emitted
    for that row or any later one. *)
Theorem cancellation_stops_the_search :
  (forall data w, completions (trace (run E data w)) = 1)
  /\ (forall pre entry post w w1 tr1,
        for_each E pre w = (Next, w1, tr1) ->
        running E w1 = false ->
        run E (pre ++ entry :: post)%list w
        = (tt, w1,
           (tr1 ++ [log_message "Search cancelled."; search_complete])%list)
        /\ navigations (trace (run E (pre ++ entry :: post)%list w))
           = navigations tr1
        /\ results (trace (run E (pre ++ entry :: post)%list w))
           = results tr1).
Proof.
  split.
  - intros data w. rewrite run_run. unfold trace at 1. simpl.
    rewrite completions_app. simpl.
    destruct (@for_each_rows _ E data data (incl_refl data) w) as [Ht _].
    rewrite (row_in_completions Ht). reflexivity.
  - intros pre entry post w w1 tr1 Hpre Hstop.
    assert (Hrun : run E (pre ++ entry :: post)%list w
                   = (tt, w1,
                      (tr1 ++ [log_message "Search cancelled.";
                               search_complete])%list)).
    { rewrite run_run, (@for_each_app _ E pre (entry :: post) w w1 tr1 Hpre).
      simpl. unfold bind. rewrite (@iteration_cancelled _ E entry w1 Hstop).
      unfold value, world, trace. simpl. rewrite <- app_assoc. reflexivity. }
    split; [exact Hrun|]. rewrite Hrun. unfold trace. simpl.
    rewrite navigations_app, results_app. simpl.
    rewrite !app_nil_r. split; reflexivity.
Qed.

(** C4. A row whose three fields are empty loads no page, emits no
    result, takes no pause and leaves the world as it was; when the
    search is still running its only trace is the skip log line. A row
    that is processed ends with the pause drawn between 15 and 40. *)
Theorem empty_row_is_skipped (w : W) :
  let r := iteration E ("", "", "") w in
  navigations (trace r) = [] /\ results (trace r) = []
  /\ sleeps (trace r) = [] /\ world r = w
  /\ (running E w = true ->
      r = (Next, w, [log_message "Skipping empty line."]))
  /\ (forall entry,
        running E w = true -> all_empty entry = false ->
        let d := fst (random_uniform E 15 40 (world (attempts E entry w))) in
        exists tr,
          trace (iteration E entry w)
          = (tr ++ [log_message (sleeping_msg d); Sleep d])%list).
Proof.
  cbv zeta.
  destruct (running E w) eqn:Hr.
  - rewrite (@iteration_skipped _ E ("", "", "") w Hr eq_refl).
    repeat split; try reflexivity.
    intros entry _ He. rewrite (@iteration_processed _ E entry w Hr He).
    unfold trace at 1. simpl. rewrite process_trace, pause_run.
    unfold trace at 2. simpl.
    exists (log_message (processing_msg entry) :: trace (attempts E entry w)).
    reflexivity.
  - rewrite (@iteration_cancelled _ E ("", "", "") w Hr).
    repeat split; try reflexivity; intros; discriminate.
Qed.

Lemma aggregate_values_value w :
  let r1 := get_aggregate_value E xpath_avg_price w in
  let r2 := get_aggregate_value E xpath_price_range (world r1) in
  let r3 := get_aggregate_value E xpath_avg_shipping (world r2) in
  let r4 := get_aggregate_value E xpath_total_sellers (world r3) in
  value (aggregate_values E w) = [value r1; value r2; value r3; value r4].
Proof.
  cbv zeta. unfold aggregate_values. rewrite !bind_value. reflexivity.
Qed.

(** C5. A field lookup whose wait of 1 times out draws a pause between 3
    and 9, logs it, sleeps, logs that the element was not found and
    returns the empty string. The attempt goes on with the other fields:
    it succeeds exactly when one of the four values is not empty. *)
Theorem missing_field_is_empty_string (xpath : string) (w w1 w2 : W) (d : Q) :
  wait_visibility E 1 xpath w = (None, w1) ->
  random_uniform E 3 9 w1 = (d, w2) ->
  get_aggregate_value E xpath w
  = ("", time_sleep E d w2,
     [log_message (sleeping_msg d); Sleep d;
      log_message ("Could not find element with xpath: " ++ xpath
                     ++ ". Returning empty value.")])
  /\ (forall q title author isbn u u0,
        wait_presence E 19 container (driver_get E (search_url q) u) = (true, u0) ->
        let r1 := get_aggregate_value E xpath_avg_price u0 in
        let r2 := get_aggregate_value E xpath_price_range (world r1) in
        let r3 := get_aggregate_value E xpath_avg_shipping (world r2) in
        let r4 := get_aggregate_value E xpath_total_sellers (world r3) in
        value (perform_search E q title author isbn u)
        = Py.any [value r1; value r2; value r3; value r4]).
Proof.
  intros Hw Hd. split.
  - eapply get_aggregate_value_missing; eassumption.
  - intros q title author isbn u u0 Hp. cbv zeta.
    rewrite <- aggregate_values_value.
    rewrite (@perform_search_present _ E q title author isbn u u0 _ _ _ Hp
               (run_eta _)).
    reflexivity.
Qed.

(** C6. The row with only the identifier 9780441013593, on a marketplace
    whose container never shows up: the query by identifier times out,
    the second query is made with the single space that joins the empty
    title and author, it times out too, both are logged as without
    results, and no result is emitted. *)
Theorem isbn_only_row_times_out (w : W) :
  (forall u, fst (wait_presence E 19 container u) = false) ->
  running E w = true ->
  let entry : Entry := ("", "", "9780441013593") in
  secondary_query entry = " "
  /\ results (trace (iteration E entry w)) = []
  /\ exists d,
      trace (iteration E entry w)
      = [log_message "Processing: , , ISBN: 9780441013593";
         Navigate (search_url "9780441013593");
         log_message ("Navigating to URL: " ++ search_url "9780441013593");
         log_message "No results found for 9780441013593. Skipping.";
         Navigate (search_url " ");
         log_message ("Navigating to URL: " ++ search_url " ");
         log_message "No results found for  . Skipping.";
         log_message (sleeping_msg d);
         Sleep d].
Proof.
  intros Hnever Hr entry.
  assert (Htr : exists d,
             trace (iteration E entry w)
             = [log_message "Processing: , , ISBN: 9780441013593";
                Navigate (search_url "9780441013593");
                log_message ("Navigating to URL: " ++ search_url "9780441013593");
                log_message "No results found for 9780441013593. Skipping.";
                Navigate (search_url " ");
                log_message ("Navigating to URL: " ++ search_url " ");
                log_message "No results found for  . Skipping.";
                log_message (sleeping_msg d);
                Sleep d]).
  { rewrite (@iteration_processed _ E entry w Hr eq_refl).
    unfold trace at 1. simpl.
    rewrite process_trace, pause_run, attempts_trace.
    unfold primary_attempt, secondary_attempt, entry. simpl.
    destruct (wait_presence E 19 container
                (driver_get E (search_url "9780441013593") w))
      as [p1 u1] eqn:H1.
    pose proof (Hnever (driver_get E (search_url "9780441013593") w)) as Hp1.
    rewrite H1 in Hp1. simpl in Hp1. subst p1.
    rewrite (@perform_search_timeout _ E _ "" "" "9780441013593" w u1 H1).
    unfold value at 1, world at 1, trace at 2. simpl.
    destruct (wait_presence E 19 container (driver_get E (search_url " ") u1))
      as [p2 u2] eqn:H2.
    pose proof (Hnever (driver_get E (search_url " ") u1)) as Hp2.
    rewrite H2 in Hp2. simpl in Hp2. subst p2.
    rewrite (@perform_search_timeout _ E _ "" "" "9780441013593" u1 u2 H2).
    unfold trace. simpl. eexists. reflexivity. }
  split; [reflexivity|]. split.
  - destruct Htr as [d Htr]. rewrite Htr. reflexivity.
  - exact Htr.
Qed.

(** C10. Every result row has seven fields, the first three of which are
    the title, author and identifier of the row being processed, hence of
    a row of the input; this holds as well when the result comes from the
    second query, by title and author. *)
Theorem result_row_carries_its_entry :
  (forall title author isbn w row,
      In (update_result row) (trace (iteration E (title, author, isbn) w)) ->
      length row = 7 /\ firstn 3 row = [title; author; isbn])
  /\ (forall data w row,
        In (update_result row) (trace (run E data w)) ->
        length row = 7
        /\ exists title author isbn,
            In (title, author, isbn) data
            /\ firstn 3 row = [title; author; isbn])
  /\ (forall title author isbn w,
        let entry := (title, author, isbn) in
        let r1 := primary_attempt E entry w in
        value r1 = false ->
        value (secondary_attempt E entry (world r1)) = true ->
        exists fields,
          length fields = 4
          /\ results (trace (attempts E entry w))
             = [([title; author; isbn] ++ fields)%list]).
Proof.
  split; [|split].
  - intros title author isbn w row Hin.
    destruct (@iteration_rows _ E (title, author, isbn) w) as [Ht _].
    rewrite Forall_forall in Ht. exact (Ht _ Hin).
  - intros data w row Hin. rewrite run_run in Hin. unfold trace in Hin.
    simpl in Hin. apply in_app_or in Hin.
    destruct Hin as [Hin|[Hin|[]]]; [|discriminate Hin].
    destruct (@for_each_rows _ E data data (incl_refl data) w) as [Ht _].
    rewrite Forall_forall in Ht. exact (Ht _ Hin).
  - intros title author isbn w entry r1 H1 H2.
    rewrite attempts_trace. fold r1. rewrite H1, results_app.
    subst r1.
    change (primary_attempt E entry)
      with (perform_search E (primary_query entry) title author isbn) in *.
    change (secondary_attempt E entry)
      with (perform_search E (secondary_query entry) title author isbn) in *.
    destruct (@perform_search_results _ E (primary_query entry) title author isbn w)
      as [[_ Hr]|[Hv _]]; [|congruence].
    rewrite Hr. simpl.
    destruct (@perform_search_results _ E (secondary_query entry) title author
                isbn
                (world (perform_search E (primary_query entry) title author isbn w)))
      as [[Hv _]|[_ [fields [Hl [_ Hres]]]]]; [congruence|].
    exists fields. split; [exact Hl|]. exact Hres.
Qed.

End WorkerClaims.

(** ** Properties of loading and exporting *)

Section WindowClaims.

Import Pandas EbaySearcher.

Context {FS : Type} (X : Excel FS) (repr_list : list string -> string).

Lemma process_file_raised path fs self e :
  read_excel X path fs = Raises e ->
  process_file_try X path fs self = Raises e.
Proof. intros H. unfold process_file_try. rewrite H. reflexivity. Qed.

Lemma process_file_incomplete path fs self df :
  read_excel X path fs = Returns df ->
  has_required_columns df = false ->
  process_file X path fs self
  = (log self "Excel file must contain 'Title', 'Author', and 'ISBN' columns.",
     None).
Proof.
  intros H Hc. unfold process_file, process_file_try. rewrite H.
  unfold has_required_columns in Hc.
  destruct (has_column "Title" df), (has_column "Author" df),
    (has_column "ISBN" df); simpl in *; try discriminate; reflexivity.
Qed.

Lemma process_file_loaded path fs self df :
  read_excel X path fs = Returns df ->
  has_required_columns df = true ->
  let rows' := tolist (fillna (Str "") (select ["Title"; "Author"; "ISBN"] df)) in
  process_file X path fs self
  = (log (set_data self rows')
         ("Loaded " ++ Py.str_of_nat (length rows') ++ " rows from the file."),
     None).
Proof.
  intros H Hc. unfold process_file, process_file_try. rewrite H.
  unfold has_required_columns in Hc.
  destruct (has_column "Title" df), (has_column "Author" df),
    (has_column "ISBN" df); simpl in *; try discriminate; reflexivity.
Qed.

(** Whatever the exception, the handlers leave the loaded rows alone. *)
Lemma process_file_raised_data path fs self e :
  read_excel X path fs = Raises e ->
  data (fst (process_file X path fs self)) = data self.
Proof.
  intros H. unfold process_file. rewrite (process_file_raised _ _ self H).
  repeat match goal with
         | |- context [if ?b then _ else _] => destruct b
         end; reflexivity.
Qed.

(** C7, amended. The handlers go by the class of the exception, not by
    what is wrong with the file. An instance of one of the five classes
    that have a handler of their own (FileNotFoundError, EmptyDataError,
    ValueError, KeyError, AttributeError) adds exactly one line to the
    log window and is not propagated; a missing required column does the
    same; the loaded rows and the table stay as they were. Any other
    instance of [Exception], such as the one a file of the wrong format
    can raise, adds one line to the log window and is raised again. *)
Theorem listed_exceptions_logged_others_raised
        (path : string) (fs : FS) (self : Self) :
  let after := process_file X path fs self in
  (forall e,
      read_excel X path fs = Raises e -> expected e = true ->
      (exists line, log_window (fst after) = (log_window self ++ [line])%list)
      /\ snd after = None
      /\ data (fst after) = data self
      /\ result_table (fst after) = result_table self)
  /\ (forall df,
        read_excel X path fs = Returns df ->
        has_required_columns df = false ->
        log_window (fst after)
        = (log_window self
             ++ ["Excel file must contain 'Title', 'Author', and 'ISBN' columns."])%list
        /\ snd after = None
        /\ data (fst after) = data self
        /\ result_table (fst after) = result_table self)
  /\ (forall e,
        read_excel X path fs = Raises e -> expected e = false ->
        isinstance e "Exception" = true ->
        log_window (fst after)
        = (log_window self
             ++ [("An unexpected error occurred: " ++ exn_str e)%string])%list
        /\ snd after = Some e
        /\ data (fst after) = data self
        /\ result_table (fst after) = result_table self)
  /\ (forall msg,
        (read_excel X path fs = Raises (FileNotFoundError msg) ->
         log_window (fst after)
         = (log_window self ++ [("File not found: " ++ path)%string])%list
         /\ snd after = None)
        /\ (read_excel X path fs = Raises (EmptyDataError msg) ->
            log_window (fst after)
            = (log_window self
                 ++ ["The file is empty. Please select a non-empty Excel file."])%list
            /\ snd after = None)
        /\ (read_excel X path fs = Raises (ValueError msg) ->
            log_window (fst after)
            = (log_window self
                 ++ ["Invalid file format. Please select a valid Excel file."])%list
            /\ snd after = None)
        /\ (read_excel X path fs = Raises (KeyError msg) ->
            log_window (fst after)
            = (log_window self
                 ++ [("Data processing error: " ++ msg)%string])%list
            /\ snd after = None)
        /\ (read_excel X path fs = Raises (AttributeError msg) ->
            log_window (fst after)
            = (log_window self
                 ++ [("Data processing error: " ++ msg)%string])%list
            /\ snd after = None)).
Proof.
  cbv zeta. split; [|split; [|split]].
  - intros e H He. unfold process_file.
    rewrite (process_file_raised _ _ self H).
    unfold expected, handled_classes in He. simpl in He.
    destruct (isinstance e "FileNotFoundError");
      [repeat split; eexists; reflexivity|].
    destruct (isinstance e "EmptyDataError");
      [repeat split; eexists; reflexivity|].
    destruct (isinstance e "ValueError");
      [repeat split; eexists; reflexivity|].
    destruct (isinstance e "KeyError");
      [repeat split; eexists; reflexivity|].
    destruct (isinstance e "AttributeError");
      [repeat split; eexists; reflexivity|].
    discriminate He.
  - intros df H Hc. rewrite (process_file_incomplete _ _ self H Hc).
    repeat split.
  - intros e H He Hexc. unfold process_file.
    rewrite (process_file_raised _ _ self H).
    unfold expected, handled_classes in He. simpl in He.
    destruct (isinstance e "FileNotFoundError"); [discriminate He|].
    destruct (isinstance e "EmptyDataError"); [discriminate He|].
    destruct (isinstance e "ValueError"); [discriminate He|].
    destruct (isinstance e "KeyError"); [discriminate He|].
    destruct (isinstance e "AttributeError"); [discriminate He|].
    simpl. rewrite Hexc. repeat split.
  - intros msg.
    repeat split;
      unfold process_file;
      match goal with
      | H : read_excel _ _ _ = Raises _ |- _ =>
          rewrite (process_file_raised _ _ self H)
      end;
      reflexivity.
Qed.

(** C9. The loaded rows change only when the file is read and has the
    three required columns: an exception of any kind, handled or raised
    again, and a missing column leave them as they were. *)
Theorem failed_load_keeps_data (path : string) (fs : FS) (self : Self) :
  let after := process_file X path fs self in
  (forall e, read_excel X path fs = Raises e -> data (fst after) = data self)
  /\ (forall df,
        read_excel X path fs = Returns df ->
        has_required_columns df = false ->
        data (fst after) = data self /\ snd after = None)
  /\ (forall df,
        read_excel X path fs = Returns df ->
        has_required_columns df = true ->
        data (fst after)
        = tolist (fillna (Str "") (select ["Title"; "Author"; "ISBN"] df))
        /\ snd after = None)
  /\ (data (fst after) <> data self ->
      exists df,
        read_excel X path fs = Returns df /\ has_required_columns df = true).
Proof.
  cbv zeta. split; [|split; [|split]].
  - intros e H. apply process_file_raised_data with (e := e). exact H.
  - intros df H Hc. rewrite (process_file_incomplete _ _ self H Hc).
    split; reflexivity.
  - intros df H Hc. rewrite (process_file_loaded _ _ self H Hc).
    split; reflexivity.
  - intros Hd. destruct (read_excel X path fs) as [df|e] eqn:H.
    + destruct (has_required_columns df) eqn:Hc.
      * exists df. split; [reflexivity | exact Hc].
      * exfalso. apply Hd.
        rewrite (process_file_incomplete _ _ self H Hc). reflexivity.
    + exfalso. apply Hd. apply process_file_raised_data with (e := e). exact H.
Qed.

Lemma update_nth_last {A : Type} (f : A -> A) (t : list A) (x : A) :
  update_nth (length t) f (t ++ [x])%list = (t ++ [f x])%list.
Proof. induction t as [|y t IH]; simpl; [reflexivity | rewrite IH; reflexivity]. Qed.

(** The table after one result of seven fields: one more row, holding
    the fields. *)
Lemma update_table_row result self :
  length result = 7 ->
  result_table (update_table repr_list result self)
  = (result_table self ++ [map Some result])%list.
Proof.
  intros Hl.
  destruct result as [|a [|b [|c [|d [|e [|f [|g [|]]]]]]]]; try discriminate Hl.
  unfold update_table, insert_row, enumerate, set_item. simpl.
  rewrite !update_nth_last. reflexivity.
Qed.

Lemma accumulate_table rs self :
  Forall (fun r => length r = 7) rs ->
  result_table (accumulate repr_list rs self)
  = (result_table self ++ map (map Some) rs)%list.
Proof.
  intros H. revert self. unfold accumulate.
  induction H as [|r rs Hr _ IH]; intros self.
  - simpl. rewrite app_nil_r. reflexivity.
  - simpl. rewrite IH.
    rewrite (@update_table_row r self Hr), <- app_assoc. reflexivity.
Qed.

Lemma map_nth_seq {A B : Type} (F : A -> B) (d : A) (t : list A) :
  map (fun i => F (nth i t d)) (seq 0 (length t)) = map F t.
Proof.
  induction t as [|x t IH]; simpl; [reflexivity|].
  f_equal. rewrite <- seq_shift, map_map. exact IH.
Qed.

(** The rows handed to [pd.DataFrame] are the rows of the table. *)
Lemma exported_rows rs :
  Forall (fun r => length r = 7) rs ->
  map (fun row =>
         map (fun col =>
                match item (map (map Some) rs) row col with
                | Some text => text
                | None => ""
                end)
             (seq 0 column_count))
      (seq 0 (length (map (map Some) rs)))
  = rs.
Proof.
  intros H. unfold item.
  rewrite (map_nth_seq
             (fun r => map (fun col => match nth col r None with
                                       | Some text => text
                                       | None => ""
                                       end) (seq 0 column_count))
             [] (map (map Some) rs)).
  rewrite map_map. rewrite <- (map_id rs) at 2.
  apply map_ext_in. intros r Hin.
  rewrite Forall_forall in H. specialize (H r Hin).
  destruct r as [|a [|b [|c [|d [|e [|f [|g [|]]]]]]]]; try discriminate H.
  reflexivity.
Qed.

(** Loading a sheet that has the seven labels of an export keeps the
    first three cells of each row, missing values made empty strings. *)
Lemma reloaded_rows df :
  columns df = export_columns ->
  Forall (fun row => length row = 7) (rows df) ->
  tolist (fillna (Str "") (select ["Title"; "Author"; "ISBN"] df))
  = map (fun row => map blank (firstn 3 row)) (rows df).
Proof.
  intros Hc H. unfold tolist, fillna, select. rewrite Hc. simpl.
  rewrite !map_map.
  apply map_ext_in. intros r Hin.
  rewrite Forall_forall in H. specialize (H r Hin).
  destruct r as [|a [|b [|c [|d [|e [|f [|g [|]]]]]]]]; try discriminate H.
  reflexivity.
Qed.

(** C8, amended. After a non-empty set of results is exported to a file
    that the operator names, what was handed to the spreadsheet writer
    is the seven labels in order and one row for each result, in order,
    holding its seven strings as they were. Loading that file does not
    give those rows back: for each row of the sheet that the reader
    returns, the loader keeps the cells under Title, Author and ISBN
    only, as the reader returns them, but for a missing value, which
    becomes the empty string. The loader converts nothing itself, and
    nothing more is said of what the reader makes of a string. *)
Theorem export_then_load_keeps_three_columns
        (rs : list (list string)) (path : string) (fs : FS) (self : Self) :
  result_table self = [] ->
  rs <> [] ->
  Forall (fun r => length r = 7) rs ->
  path <> "" ->
  let shown := accumulate repr_list rs self in
  let exported := export_results X path fs shown in
  let reloaded := process_file X path (snd exported) (fst exported) in
  snd exported
  = to_excel X {| columns := export_columns; rows := map (map Str) rs |}
             path fs
  /\ (forall df,
        read_excel X path (snd exported) = Returns df ->
        columns df = export_columns ->
        Forall (fun row => length row = 7) (rows df) ->
        snd reloaded = None
        /\ data (fst reloaded)
           = map (fun row => map blank (firstn 3 row)) (rows df)
        /\ Forall (fun row => length row = 3) (data (fst reloaded))).
Proof.
  intros Ht Hne Hrs Hp. cbv zeta.
  pose proof (@accumulate_table rs self Hrs) as Htab. rewrite Ht in Htab.
  simpl in Htab.
  unfold export_results. rewrite Htab.
  destruct rs as [|r0 rs0] eqn:Ers; [congruence|]. rewrite <- Ers in *.
  assert (Hlen : Nat.eqb (length (map (map Some) rs)) 0 = false)
    by (rewrite Ers; reflexivity).
  rewrite Hlen, (exported_rows Hrs).
  apply truthy_nonempty in Hp. rewrite Hp. simpl fst. simpl snd.
  split; [reflexivity|].
  intros df Hread Hcols Hrows.
  assert (Hc : has_required_columns df = true).
  { unfold has_required_columns, has_column. rewrite Hcols. reflexivity. }
  rewrite (process_file_loaded _ _ _ Hread Hc).
  simpl fst. simpl snd. split; [reflexivity|].
  cbn [fst data log set_data].
  pose proof (@reloaded_rows df Hcols Hrows) as Hd.
  unfold tolist, fillna, select in Hd. cbn [rows columns flat_map] in Hd.
  unfold tolist, fillna, select. cbn [rows columns flat_map].
  rewrite Hd. split; [reflexivity|].
  apply Forall_forall. intros row Hin.
  apply in_map_iff in Hin. destruct Hin as [r [Hr Hin]]. subst row.
  rewrite Forall_forall in Hrows. specialize (Hrows r Hin).
  destruct r as [|a [|b [|c [|d [|e [|f [|g [|]]]]]]]]; try discriminate Hrows.
  reflexivity.
Qed.

End WindowClaims.

(** ** The theorems at work on the scripted marketplace *)

Section Runs.

Import Fixture Worker.

(** C1 as the specification words it fails on a row without identifier:
    the first query, already by title and author, finds nothing, and the
    same query is made a second time. *)
Lemma second_attempt_without_identifier :
  navigations (trace (iteration (scripted barren) dune_no_isbn (start 3)))
  = [search_url "Dune Frank Herbert"; search_url "Dune Frank Herbert"]
  /\ ~ (length (navigations
                  (trace (iteration (scripted barren) dune_no_isbn (start 3)))) = 2
        <-> (value (primary_attempt (scripted barren) dune_no_isbn (start 3)) = false
             /\ primary_query dune_no_isbn = snd dune_no_isbn)).
Proof.
  split; [reflexivity|].
  intros [H _]. destruct (H eq_refl) as [_ Hq]. discriminate Hq.
Qed.

Lemma secondary_attempt_iff_primary_failed_witness :
  navigations (trace (iteration (scripted dune_site) dune (start 3)))
  = [search_url "9780441013593"; search_url "Dune Frank Herbert"].
Proof.
  exact (proj1 (secondary_attempt_iff_primary_failed
                  (scripted dune_site) "Dune" "Frank Herbert" "9780441013593"
                  (start 3) eq_refl eq_refl)).
Defined.

Lemma summary_emitted_iff_some_field_witness :
  results (trace (perform_search (scripted blank_site) "Dune Frank Herbert"
                                 "Dune" "Frank Herbert" "" (start 3)))
  = [].
Proof.
  refine (proj2 (proj2 (proj2 (proj2 (proj2
            (proj1 (summary_emitted_iff_some_field
                      (scripted blank_site) "Dune Frank Herbert"
                      "Dune" "Frank Herbert" "" (start 3))
                   eq_refl)))) _)).
  vm_compute. intros f H.
  repeat (destruct H as [H|H]; [symmetry; exact H|]). destruct H.
Defined.

Lemma cancellation_stops_the_search_witness :
  navigations (trace (run (scripted dune_site) [dune; empty_row; dune_no_isbn]
                          (start 1)))
  = [search_url "9780441013593"; search_url "Dune Frank Herbert"].
Proof.
  refine (eq_trans
            (proj1 (proj2
               (proj2 (cancellation_stops_the_search (scripted dune_site))
                      [dune] empty_row [dune_no_isbn] (start 1)
                      (world (for_each (scripted dune_site) [dune] (start 1)))
                      (trace (for_each (scripted dune_site) [dune] (start 1)))
                      _ _)))
            _); vm_compute; reflexivity.
Defined.

Lemma empty_row_is_skipped_witness :
  iteration (scripted dune_site) empty_row (start 3)
  = (Next, start 3, [log_message "Skipping empty line."]).
Proof.
  exact (proj1 (proj2 (proj2 (proj2 (proj2
           (empty_row_is_skipped (scripted dune_site) (start 3))))))
           eq_refl).
Defined.

Lemma missing_field_is_empty_string_witness :
  value (get_aggregate_value
           (scripted dune_site) xpath_price_range
           {| page := search_url "Dune Frank Herbert"; patience := 3 |})
  = "".
Proof.
  refine (f_equal value
            (proj1 (@missing_field_is_empty_string
                      World (scripted dune_site) xpath_price_range
                      {| page := search_url "Dune Frank Herbert"; patience := 3 |}
                      _ _ _ _ _))); vm_compute; reflexivity.
Defined.

Lemma isbn_only_row_times_out_witness :
  results (trace (iteration (scripted barren) isbn_only (start 3))) = [].
Proof.
  refine (proj1 (proj2 (isbn_only_row_times_out (scripted barren) (start 3) _ _)));
    [intros u; reflexivity | reflexivity].
Defined.

Lemma result_row_carries_its_entry_witness :
  length ["Dune"; "Frank Herbert"; "9780441013593"; "$12.50"; ""; ""; ""] = 7
  /\ exists title author isbn,
      In (title, author, isbn) [empty_row; dune]
      /\ firstn 3 ["Dune"; "Frank Herbert"; "9780441013593"; "$12.50"; ""; ""; ""]
         = [title; author; isbn].
Proof.
  refine (proj1 (proj2 (result_row_carries_its_entry (scripted dune_site)))
                [empty_row; dune] (start 3) _ _).
  apply (proj2 (In_results _ _)). vm_compute. left. reflexivity.
Defined.

End Runs.

Section Sheets.

Import Fixture Pandas EbaySearcher.

(** C8 as the specification words it fails on a single result: loading
    the exported file gives a row of three cells, not of seven. *)
Lemma export_then_load_drops_statistics :
  data (fst (process_file
               memory_excel "out.xlsx"
               (snd (export_results memory_excel "out.xlsx" []
                       (accumulate show_list [dune_result] fresh)))
               (fst (export_results memory_excel "out.xlsx" []
                       (accumulate show_list [dune_result] fresh)))))
  = [[Str "Dune"; Str "Frank Herbert"; Str ""]]
  /\ data (fst (process_file
                  memory_excel "out.xlsx"
                  (snd (export_results memory_excel "out.xlsx" []
                          (accumulate show_list [dune_result] fresh)))
                  (fst (export_results memory_excel "out.xlsx" []
                          (accumulate show_list [dune_result] fresh)))))
     <> map (map Str) [dune_result].
Proof.
  split; [reflexivity|]. intros H. discriminate H.
Qed.

Lemma export_then_load_keeps_three_columns_witness :
  data (fst (process_file
               inferring_excel "out.xlsx"
               (snd (export_results inferring_excel "out.xlsx" []
                       (accumulate show_list [orwell_result] fresh)))
               (fst (export_results inferring_excel "out.xlsx" []
                       (accumulate show_list [orwell_result] fresh)))))
  = [[Num 1984; Str "George Orwell"; Num 451524934]].
Proof.
  refine (proj1 (proj2 (proj2
            (@export_then_load_keeps_three_columns
               Files inferring_excel show_list
               [orwell_result] "out.xlsx" [] fresh eq_refl _ _ _)
            {| columns := export_columns;
               rows := [[Num 1984; Str "George Orwell"; Num 451524934;
                         Str "$7.99"; NaN; NaN; Num 12]] |}
            eq_refl eq_refl _))).
  - discriminate.
  - repeat constructor.
  - discriminate.
  - repeat constructor.
Defined.

(** C7 as the specification words it fails on a file of the wrong
    format whose reading raises [BadZipFile]: the exception is logged as
    unexpected and leaves the method. *)
Lemma wrong_format_file_propagates :
  process_file (failing_excel (BadZipFile "File is not a zip file"))
               "books.xlsx" tt fresh
  = ({| data := [];
        log_window := ["An unexpected error occurred: File is not a zip file"];
        result_table := [] |},
     Some (BadZipFile "File is not a zip file"))
  /\ snd (process_file (failing_excel (BadZipFile "File is not a zip file"))
                       "books.xlsx" tt fresh)
     <> None.
Proof.
  split; [reflexivity|]. intros H. discriminate H.
Qed.

Lemma listed_exceptions_logged_others_raised_witness :
  log_window
    (fst (process_file
            (failing_excel (EmptyDataError "No columns to parse from file"))
            "books.xlsx" tt fresh))
  = ["The file is empty. Please select a non-empty Excel file."]
  /\ snd (process_file (failing_excel (PermissionError "denied"))
                       "books.xlsx" tt fresh)
     = Some (PermissionError "denied").
Proof.
  split.
  - exact (proj1 (proj1 (proj2 (proj2 (proj2 (proj2
             (@listed_exceptions_logged_others_raised
                unit (failing_excel (EmptyDataError "No columns to parse from file"))
                "books.xlsx" tt fresh)))
             "No columns to parse from file")) eq_refl)).
  - exact (proj1 (proj2 (proj1 (proj2 (proj2
             (@listed_exceptions_logged_others_raised
                unit (failing_excel (PermissionError "denied"))
                "books.xlsx" tt fresh)))
             (PermissionError "denied") eq_refl eq_refl eq_refl))).
Defined.

Lemma failed_load_keeps_data_witness :
  data (fst (process_file memory_excel "books.xlsx"
                          [("books.xlsx", two_columns)]
                          (set_data fresh [[Str "Emma"; Str "Jane Austen"; NaN]])))
  = [[Str "Emma"; Str "Jane Austen"; NaN]].
Proof.
  exact (proj1 (proj1 (proj2
           (@failed_load_keeps_data
              Files memory_excel "books.xlsx" [("books.xlsx", two_columns)]
              (set_data fresh [[Str "Emma"; Str "Jane Austen"; NaN]])))
           (read_back two_columns) eq_refl eq_refl)).
Defined.

End Sheets.

(** ** More on the search loop *)

Section WorkerExtras.

Context {W : Type} (E : Env W).
Import Worker.

Lemma trace_triple {A : Type} (a : A) (w : W) (t : Trace) : trace (a, w, t) = t.
Proof. reflexivity. Qed.

Lemma value_triple {A : Type} (a : A) (w : W) (t : Trace) : value (a, w, t) = a.
Proof. reflexivity. Qed.

Lemma for_each_cons entry rest w :
  for_each E (entry :: rest) w
  = match value (iteration E entry w) with
    | Break => iteration E entry w
    | Next =>
        (value (for_each E rest (world (iteration E entry w))),
         world (for_each E rest (world (iteration E entry w))),
         (trace (iteration E entry w)
            ++ trace (for_each E rest (world (iteration E entry w))))%list)
    end.
Proof.
  simpl. unfold bind, value, world, trace.
  destruct (iteration E entry w) as [[c w1] t1]. simpl.
  destruct c.
  - destruct (for_each E rest w1) as [[c2 w2] t2]. reflexivity.
  - simpl. rewrite app_nil_r. reflexivity.
Qed.

(** The value of an iteration: [Break] exactly when the flag is cleared. *)
Lemma iteration_value entry w :
  value (iteration E entry w) = if running E w then Next else Break.
Proof.
  destruct (running E w) eqn:Hr.
  - destruct (all_empty entry) eqn:He.
    + rewrite (@iteration_skipped _ E entry w Hr He). reflexivity.
    + rewrite (@iteration_processed _ E entry w Hr He). reflexivity.
  - rewrite (@iteration_cancelled _ E entry w Hr). reflexivity.
Qed.

(** X1. The completion signal is the last event of a run and nothing
    before it is a completion signal; a run over no rows emits nothing
    else and leaves the world as it was. *)
Theorem completion_is_last (data : list Entry) (w : W) :
  trace (run E data w) = (trace (for_each E data w) ++ [search_complete])%list
  /\ ~ In search_complete (trace (for_each E data w))
  /\ run E [] w = (tt, w, [search_complete]).
Proof.
  split; [rewrite run_run; reflexivity|]. split; [|reflexivity].
  destruct (@for_each_rows _ E data data (incl_refl data) w) as [Ht _].
  rewrite Forall_forall in Ht. intros Hin. exact (Ht _ Hin).
Qed.

(** X2. The loop leaves its list early only by finding the flag cleared
    at the top of a row: the rows before were all gone through, and the
    last thing the loop emitted is the cancellation line. *)
Theorem loop_breaks_only_on_cancellation (data : list Entry) (w : W) :
  value (for_each E data w) = Break ->
  exists pre entry post w1 tr1,
    data = (pre ++ entry :: post)%list
    /\ for_each E pre w = (Next, w1, tr1)
    /\ running E w1 = false
    /\ for_each E data w
       = (Break, w1, (tr1 ++ [log_message "Search cancelled."])%list).
Proof.
  revert w. induction data as [|entry rest IH]; intros w Hb.
  - discriminate Hb.
  - rewrite for_each_cons in *. pose proof (iteration_value entry w) as Hv.
    destruct (running E w) eqn:Hr.
    + rewrite Hv in *. unfold value at 1 in Hb. simpl in Hb.
      destruct (IH _ Hb) as (pre & e & post & w1 & tr1 & Hd & Hp & Hs & Hf).
      exists (entry :: pre), e, post, w1,
        (trace (iteration E entry w) ++ tr1)%list.
      split; [rewrite Hd; reflexivity|]. split; [|split; [exact Hs|]].
      * rewrite for_each_cons, Hv, Hp. reflexivity.
      * rewrite Hf. unfold value, world, trace. simpl.
        rewrite app_assoc. reflexivity.
    + rewrite Hv. exists [], entry, rest, w, [].
      split; [reflexivity|]. split; [reflexivity|]. split; [exact Hr|].
      apply iteration_cancelled. exact Hr.
Qed.

Lemma primary_attempt_results entry w :
  let r := primary_attempt E entry w in
  (value r = false /\ results (trace r) = [])
  \/ (value r = true /\
      exists fields, length fields = 4 /\ Py.any fields = true /\
                     results (trace r) = [(entry_fields entry ++ fields)%list]).
Proof.
  destruct entry as [[title author] isbn].
  apply perform_search_results.
Qed.

Lemma secondary_attempt_results entry w :
  let r := secondary_attempt E entry w in
  (value r = false /\ results (trace r) = [])
  \/ (value r = true /\
      exists fields, length fields = 4 /\ Py.any fields = true /\
                     results (trace r) = [(entry_fields entry ++ fields)%list]).
Proof.
  destruct entry as [[title author] isbn].
  apply perform_search_results.
Qed.

(** The results of a row that is processed are those of its attempts. *)
Lemma iteration_results entry w :
  running E w = true -> all_empty entry = false ->
  results (trace (iteration E entry w))
  = (results (trace (primary_attempt E entry w))
     ++ if value (primary_attempt E entry w) then []
        else results (trace (secondary_attempt E entry
                               (world (primary_attempt E entry w)))))%list.
Proof.
  intros Hr He. rewrite (@iteration_processed _ E entry w Hr He).
  unfold trace at 1. simpl. rewrite process_trace. simpl.
  rewrite results_app, attempts_trace, results_app, pause_run.
  unfold trace at 3. simpl. rewrite app_nil_r.
  destruct (value (primary_attempt E entry w)); reflexivity.
Qed.

(** What a row emits: nothing, or one row that starts with the entry. *)
Lemma iteration_results_shape entry w :
  results (trace (iteration E entry w)) = []
  \/ exists fields,
      length fields = 4
      /\ results (trace (iteration E entry w))
         = [(entry_fields entry ++ fields)%list].
Proof.
  destruct (running E w) eqn:Hr.
  - destruct (all_empty entry) eqn:He.
    + rewrite (@iteration_skipped _ E entry w Hr He). left. reflexivity.
    + rewrite (iteration_results entry w Hr He).
      destruct (primary_attempt_results entry w)
        as [[Hv Hres]|[Hv (fields & Hl & _ & Hres)]]; rewrite Hv, Hres; simpl.
      * destruct (secondary_attempt_results entry
                    (world (primary_attempt E entry w)))
          as [[_ Hres2]|[_ (fields & Hl & _ & Hres2)]]; rewrite Hres2.
        -- left. reflexivity.
        -- right. exists fields. split; [exact Hl | reflexivity].
      * right. exists fields. split; [exact Hl | reflexivity].
  - rewrite (@iteration_cancelled _ E entry w Hr). left. reflexivity.
Qed.

(** X3. A row gives at most one result. A processed row gives exactly
    one when its first attempt succeeds or, that one failing, its second
    does; it gives none when both fail, and a skipped row or one found
    after cancellation gives none. *)
Theorem row_yields_at_most_one_result (entry : Entry) (w : W) :
  length (results (trace (iteration E entry w))) <= 1
  /\ (running E w = false -> results (trace (iteration E entry w)) = [])
  /\ (all_empty entry = true -> results (trace (iteration E entry w)) = [])
  /\ (running E w = true -> all_empty entry = false ->
      let r1 := primary_attempt E entry w in
      let r2 := secondary_attempt E entry (world r1) in
      (length (results (trace (iteration E entry w))) = 1
       <-> (if value r1 then true else value r2) = true)
      /\ (value r1 = false -> value r2 = false ->
          results (trace (iteration E entry w)) = [])).
Proof.
  split; [|split; [|split]].
  - destruct (iteration_results_shape entry w) as [H|(fields & _ & H)];
      rewrite H; simpl; lia.
  - intros Hr. rewrite (@iteration_cancelled _ E entry w Hr). reflexivity.
  - intros He. destruct (running E w) eqn:Hr.
    + rewrite (@iteration_skipped _ E entry w Hr He). reflexivity.
    + rewrite (@iteration_cancelled _ E entry w Hr). reflexivity.
  - intros Hr He. cbv zeta. rewrite (iteration_results entry w Hr He).
    destruct (primary_attempt_results entry w)
      as [[Hv Hres]|[Hv (fields & Hl & _ & Hres)]]; rewrite Hv, Hres; simpl.
    + destruct (secondary_attempt_results entry
                  (world (primary_attempt E entry w)))
        as [[Hv2 Hres2]|[Hv2 (fields & Hl & _ & Hres2)]]; rewrite Hv2, Hres2;
        simpl; (split; [split; congruence | congruence]).
    + split; [split; congruence | congruence].
Qed.

Lemma firstn_entry_fields entry (fields : list string) :
  firstn 3 (entry_fields entry ++ fields)%list = entry_fields entry.
Proof. destruct entry as [[title author] isbn]. reflexivity. Qed.

Lemma for_each_results_subseq data w :
  Subseq (map (firstn 3) (results (trace (for_each E data w))))
         (map entry_fields data).
Proof.
  revert w. induction data as [|entry rest IH]; intros w.
  - simpl. constructor.
  - rewrite for_each_cons. rewrite iteration_value.
    destruct (running E w) eqn:Hr.
    + unfold trace at 1. simpl snd. rewrite results_app, map_app.
      destruct (iteration_results_shape entry w) as [H|(fields & _ & H)];
        rewrite H; cbn [map app].
      * apply Subseq_skip. apply IH.
      * rewrite firstn_entry_fields. apply Subseq_keep. apply IH.
    + rewrite (@iteration_cancelled _ E entry w Hr). simpl.
      apply Subseq_skip. clear. induction rest; simpl; constructor; assumption.
Qed.

Lemma Subseq_length {A : Type} (xs ys : list A) :
  Subseq xs ys -> length xs <= length ys.
Proof. induction 1; simpl; lia. Qed.

Lemma run_results_subseq data w :
  Subseq (map (firstn 3) (results (trace (run E data w))))
         (map entry_fields data).
Proof.
  rewrite run_run. unfold trace at 1. simpl snd.
  rewrite results_app. simpl. rewrite app_nil_r.
  apply for_each_results_subseq.
Qed.

(** X4. The results of a run come in the order of the input rows, at
    most one for a row: their first three fields, read in order, are the
    input rows with some left out. So a run gives at most as many
    results as there are rows. *)
Theorem results_follow_input_order (data : list Entry) (w : W) :
  Subseq (map (firstn 3) (results (trace (run E data w))))
         (map entry_fields data)
  /\ length (results (trace (run E data w))) <= length data.
Proof.
  pose proof (run_results_subseq data w) as H.
  split; [exact H|].
  apply Subseq_length in H. rewrite !length_map in H. exact H.
Qed.

End WorkerExtras.

Section WorkerBounds.

Context {W : Type} (E : Env W).
Import Worker.

Lemma iteration_navigations_bound entry w :
  length (navigations (trace (iteration E entry w))) <= 2
  /\ Forall (fun url => all_empty entry = false
                        /\ (url = search_url (primary_query entry)
                            \/ url = search_url (secondary_query entry)))
            (navigations (trace (iteration E entry w)))
  /\ (running E w = true -> all_empty entry = false ->
      1 <= length (navigations (trace (iteration E entry w)))).
Proof.
  destruct (running E w) eqn:Hr.
  - destruct (all_empty entry) eqn:He.
    + rewrite (@iteration_skipped _ E entry w Hr He). simpl.
      repeat split; [lia | constructor | discriminate].
    + rewrite (iteration_navigations E entry w Hr He).
      destruct (value (primary_attempt E entry w)); simpl;
        (split; [lia|]); (split; [|intros; lia]).
      * constructor; [split; [reflexivity | left; reflexivity] | constructor].
      * constructor; [split; [reflexivity | left; reflexivity] | ].
        constructor; [split; [reflexivity | right; reflexivity] | constructor].
  - rewrite (@iteration_cancelled _ E entry w Hr). simpl.
    repeat split; [lia | constructor | discriminate].
Qed.

Lemma for_each_navigations data rest w :
  incl rest data ->
  Forall (page_of data) (navigations (trace (for_each E rest w)))
  /\ length (navigations (trace (for_each E rest w))) <= 2 * length rest.
Proof.
  revert w. induction rest as [|entry rest IH]; intros w Hincl.
  - simpl. split; [constructor | lia].
  - rewrite for_each_cons.
    destruct (iteration_navigations_bound entry w) as (Hlen & Hall & _).
    assert (Hpage : Forall (page_of data)
                           (navigations (trace (iteration E entry w)))).
    { eapply Forall_impl; [|exact Hall].
      intros url [He Hu]. exists entry.
      split; [apply Hincl; left; reflexivity | split; assumption]. }
    destruct (value (iteration E entry w)).
    + rewrite !trace_triple, navigations_app, length_app.
      destruct (IH (world (iteration E entry w))) as [Hf Hl].
      { intros x Hx. apply Hincl. right. exact Hx. }
      split; [apply Forall_app; split; assumption | simpl; lia].
    + split; [exact Hpage | simpl; lia].
Qed.

(** X5. A run loads no page but those of the queries of its rows: every
    page loaded is the page of the first or of the second query of an
    input row that is not empty, and a run over [n] rows loads at most
    [2 * n] pages. *)
Theorem pages_are_row_queries (data : list Entry) (w : W) :
  Forall (page_of data) (navigations (trace (run E data w)))
  /\ length (navigations (trace (run E data w))) <= 2 * length data.
Proof.
  rewrite run_run, !trace_triple, navigations_app. simpl. rewrite app_nil_r.
  apply for_each_navigations. apply incl_refl.
Qed.

Ltac not_the_cancel_line :=
  unfold uncancelled, sleeping_msg, could_not_find_msg, found_msg,
    data_extracted_msg;
  simpl; discriminate.

Lemma get_aggregate_value_uncancelled xpath :
  emits uncancelled (fun _ => True) (get_aggregate_value E xpath).
Proof.
  unfold get_aggregate_value.
  emits_step; [emits_step|].
  destruct a; repeat emits_step; try not_the_cancel_line; exact I.
Qed.

Lemma aggregate_values_uncancelled :
  emits uncancelled (fun _ => True) (aggregate_values E).
Proof.
  unfold aggregate_values.
  do 4 (eapply emits_bind;
        [apply get_aggregate_value_uncancelled | intros ? _]).
  apply emits_ret. exact I.
Qed.

Ltac uncancelled_step :=
  lazymatch goal with
  | |- emits _ _ (aggregate_values _) => apply aggregate_values_uncancelled
  | |- emits _ _ _ => emits_step
  | |- uncancelled _ => not_the_cancel_line
  | |- _ => exact I
  end.

Lemma perform_search_uncancelled q title author isbn :
  emits uncancelled (fun _ => True) (perform_search E q title author isbn).
Proof.
  unfold perform_search. cbv zeta. repeat uncancelled_step.
Qed.

Lemma attempts_uncancelled entry :
  emits uncancelled (fun _ => True) (attempts E entry).
Proof.
  destruct entry as [[title author] isbn].
  unfold attempts, primary_attempt, secondary_attempt.
  eapply emits_bind; [apply perform_search_uncancelled | intros found _].
  destruct found; simpl.
  - apply emits_ret. exact I.
  - eapply emits_bind; [apply perform_search_uncancelled | intros ? _].
    apply emits_ret. exact I.
Qed.

Lemma pause_uncancelled :
  emits uncancelled (fun _ => True) (pause E).
Proof.
  unfold pause, log.
  eapply emits_bind; [apply emits_call | intros d _].
  eapply emits_bind; [apply emits_emit; not_the_cancel_line | intros ? _].
  eapply emits_bind; [apply emits_exec | intros ? _].
  apply emits_emit. not_the_cancel_line.
Qed.

Lemma process_uncancelled entry :
  emits uncancelled (fun _ => True) (process E entry).
Proof.
  unfold process, log.
  eapply emits_bind; [apply emits_emit | intros ? _].
  { destruct entry as [[title author] isbn]. unfold processing_msg.
    not_the_cancel_line. }
  eapply emits_bind; [apply attempts_uncancelled | intros ? _].
  eapply emits_bind; [apply pause_uncancelled | intros ? _].
  apply emits_exec.
Qed.

Lemma In_logs (msg : string) (tr : Trace) :
  In msg (logs tr) -> In (log_message msg) tr.
Proof.
  induction tr as [|e tr IH]; simpl; [tauto|].
  destruct e; simpl; intros H; try (right; apply IH; exact H).
  destruct H as [H|H]; [left; congruence | right; apply IH; exact H].
Qed.

Lemma for_each_never_cancelled data w :
  (forall u, running E u = true) ->
  value (for_each E data w) = Next
  /\ Forall uncancelled (trace (for_each E data w))
  /\ length (queried data) <= length (navigations (trace (for_each E data w))).
Proof.
  intros Hrun. revert w. induction data as [|entry rest IH]; intros w.
  - simpl. repeat split; [constructor | lia].
  - rewrite for_each_cons, iteration_value, Hrun.
    rewrite !trace_triple, value_triple.
    destruct (IH (world (iteration E entry w))) as (Hv & Hu & Hn).
    split; [exact Hv|].
    rewrite navigations_app, length_app.
    destruct (all_empty entry) eqn:He.
    + rewrite (@iteration_skipped _ E entry w (Hrun w) He) in *.
      unfold queried in *. simpl. rewrite He. simpl.
      split; [|exact Hn].
      constructor; [unfold uncancelled; discriminate | exact Hu].
    + split.
      * apply Forall_app. split; [|exact Hu].
        rewrite (@iteration_processed _ E entry w (Hrun w) He).
        apply (process_uncancelled entry w).
      * destruct (iteration_navigations_bound entry w) as (_ & _ & H1).
        specialize (H1 (Hrun w) He).
        unfold queried in *. simpl. rewrite He. simpl. lia.
Qed.

(** X6. While the flag is never cleared the loop goes through its whole
    list: it does not break, the cancellation line is never logged, and
    every row that is not empty has at least one page loaded. *)
Theorem uncancelled_run_covers_every_row (data : list Entry) (w : W) :
  (forall u, running E u = true) ->
  value (for_each E data w) = Next
  /\ ~ In "Search cancelled." (logs (trace (run E data w)))
  /\ length (queried data) <= length (navigations (trace (run E data w))).
Proof.
  intros Hrun.
  destruct (for_each_never_cancelled data w Hrun) as (Hv & Hu & Hn).
  split; [exact Hv|]. rewrite run_run, !trace_triple.
  split.
  - intros Hin. apply In_logs in Hin. apply in_app_or in Hin.
    destruct Hin as [Hin|[Hin|[]]]; [|discriminate Hin].
    rewrite Forall_forall in Hu. exact (Hu _ Hin eq_refl).
  - rewrite navigations_app. simpl. rewrite app_nil_r. exact Hn.
Qed.

End WorkerBounds.

(** ** What [strip] leaves, and how often the worker sleeps *)

Lemma lstrip_head (s : string) :
  Py.lstrip s = ""
  \/ exists c r, Py.lstrip s = String c r /\ Py.isspace c = false.
Proof.
  induction s as [|c r IH]; simpl; [left; reflexivity|].
  destruct (Py.isspace c) eqn:Hc; [exact IH|].
  right. exists c, r. split; [reflexivity | exact Hc].
Qed.

Lemma lstrip_fixed (c : ascii) (r : string) :
  Py.isspace c = false -> Py.lstrip (String c r) = String c r.
Proof. intros H. simpl. rewrite H. reflexivity. Qed.

Lemma rstrip_idempotent (s : string) : Py.rstrip (Py.rstrip s) = Py.rstrip s.
Proof.
  induction s as [|c r IH]; simpl; [reflexivity|].
  destruct (Py.rstrip r) as [|c' r'] eqn:Hr.
  - destruct (Py.isspace c) eqn:Hc; simpl; [reflexivity|].
    rewrite Hc. reflexivity.
  - simpl in *. rewrite IH. reflexivity.
Qed.

Lemma rstrip_head (c : ascii) (r : string) :
  Py.isspace c = false -> exists r', Py.rstrip (String c r) = String c r'.
Proof.
  intros Hc. simpl. destruct (Py.rstrip r) as [|c' r'].
  - rewrite Hc. eexists. reflexivity.
  - eexists. reflexivity.
Qed.

Lemma strip_idempotent (s : string) : Py.strip (Py.strip s) = Py.strip s.
Proof.
  unfold Py.strip.
  destruct (lstrip_head s) as [H|(c & r & H & Hc)]; rewrite H.
  - reflexivity.
  - destruct (@rstrip_head c r Hc) as [r' Hr]. rewrite Hr.
    rewrite (@lstrip_fixed c r' Hc), <- Hr. apply rstrip_idempotent.
Qed.

Section WorkerPauses.

Context {W : Type} (E : Env W).
Import Worker.

Lemma get_aggregate_value_stripped xpath :
  emits passive stripped (get_aggregate_value E xpath).
Proof.
  intros w. unfold get_aggregate_value, bind, call, trace, value.
  destruct (wait_visibility E 1 xpath w) as [[text|] w1]; simpl.
  - split; [constructor | apply strip_idempotent].
  - destruct (random_uniform E 3 9 w1) as [d w2]; simpl.
    split; [repeat constructor | reflexivity].
Qed.

Lemma aggregate_values_stripped :
  emits passive (Forall stripped) (aggregate_values E).
Proof.
  unfold aggregate_values.
  eapply emits_bind; [apply get_aggregate_value_stripped | intros f1 H1].
  eapply emits_bind; [apply get_aggregate_value_stripped | intros f2 H2].
  eapply emits_bind; [apply get_aggregate_value_stripped | intros f3 H3].
  eapply emits_bind; [apply get_aggregate_value_stripped | intros f4 H4].
  apply emits_ret. repeat constructor; assumption.
Qed.

Lemma passive_clean_row e : passive e -> clean_row e.
Proof. destruct e; simpl; tauto. Qed.

Lemma perform_search_clean q title author isbn :
  emits clean_row (fun _ => True) (perform_search E q title author isbn).
Proof.
  unfold perform_search, log. cbv zeta.
  eapply emits_bind; [apply emits_exec | intros ? _].
  eapply emits_bind; [apply emits_emit; exact I | intros ? _].
  eapply emits_bind; [apply emits_emit; exact I | intros ? _].
  eapply emits_bind; [apply emits_call | intros present _].
  destruct present.
  - eapply emits_bind; [apply emits_emit; exact I | intros ? _].
    eapply emits_bind;
      [eapply emits_mono; [apply passive_clean_row
                          | apply aggregate_values_stripped]
      | intros fields Hf].
    eapply emits_bind; [apply emits_emit; exact I | intros ? _].
    destruct (negb (Py.any fields)).
    + eapply emits_bind; [apply emits_emit; exact I | intros ? _].
      apply emits_ret. exact I.
    + eapply emits_bind; [apply emits_emit; exact I | intros ? _].
      eapply emits_bind; [apply emits_emit; exact Hf | intros ? _].
      apply emits_ret. exact I.
  - eapply emits_bind; [apply emits_emit; exact I | intros ? _].
    apply emits_ret. exact I.
Qed.

Lemma attempts_clean entry :
  emits clean_row (fun _ => True) (attempts E entry).
Proof.
  destruct entry as [[title author] isbn].
  unfold attempts, primary_attempt, secondary_attempt.
  eapply emits_bind; [apply perform_search_clean | intros found _].
  destruct found; simpl.
  - apply emits_ret. exact I.
  - eapply emits_bind; [apply perform_search_clean | intros ? _].
    apply emits_ret. exact I.
Qed.

Lemma pause_clean : emits clean_row (fun _ => True) (pause E).
Proof.
  unfold pause, log.
  eapply emits_bind; [apply emits_call | intros d _].
  eapply emits_bind; [apply emits_emit; exact I | intros ? _].
  eapply emits_bind; [apply emits_exec | intros ? _].
  apply emits_emit. exact I.
Qed.

Lemma process_clean entry :
  emits clean_row (fun _ => True) (process E entry).
Proof.
  unfold process, log.
  eapply emits_bind; [apply emits_emit; exact I | intros ? _].
  eapply emits_bind; [apply attempts_clean | intros ? _].
  eapply emits_bind; [apply pause_clean | intros ? _].
  apply emits_exec.
Qed.

Lemma iteration_clean entry :
  emits clean_row (fun _ => True) (iteration E entry).
Proof.
  unfold iteration, log.
  eapply emits_bind; [apply emits_peek | intros r _].
  destruct (negb r).
  { eapply emits_bind; [apply emits_emit; exact I | intros ? _].
    apply emits_ret. exact I. }
  destruct (all_empty entry).
  { eapply emits_bind; [apply emits_emit; exact I | intros ? _].
    apply emits_ret. exact I. }
  eapply emits_bind; [apply process_clean | intros ? _].
  apply emits_ret. exact I.
Qed.

Lemma for_each_clean data :
  emits clean_row (fun _ => True) (for_each E data).
Proof.
  induction data as [|entry rest IH]; simpl.
  - apply emits_ret. exact I.
  - eapply emits_bind; [apply iteration_clean | intros c _].
    destruct c; [exact IH | apply emits_ret; exact I].
Qed.

(** X7. The four statistics of every result are stripped: [strip] would
    leave each of them as it is, so none begins or ends with white
    space. *)
Theorem result_statistics_are_stripped (data : list Entry) (w : W)
        (row : list string) :
  In row (results (trace (run E data w))) ->
  Forall stripped (skipn 3 row).
Proof.
  intros Hin. apply In_results in Hin.
  rewrite run_run in Hin. unfold trace in Hin. simpl in Hin.
  apply in_app_or in Hin. destruct Hin as [Hin|[Hin|[]]]; [|discriminate Hin].
  destruct (for_each_clean data w) as [Ht _].
  rewrite Forall_forall in Ht. exact (Ht _ Hin).
Qed.

Lemma pauses_bind {A B} (a b : nat) (m : M W A) (f : A -> M W B) :
  pauses a m -> (forall x, pauses b (f x)) -> pauses (a + b) (bind m f).
Proof.
  intros Hm Hf w. rewrite bind_trace, sleeps_app, length_app.
  specialize (Hm w). specialize (Hf (value (m w)) (world (m w))). lia.
Qed.

Lemma pauses_le {A} (a b : nat) (m : M W A) :
  a <= b -> pauses a m -> pauses b m.
Proof. intros Hab Hm w. specialize (Hm w). lia. Qed.

Lemma pauses_quiet {A} (m : M W A) :
  (forall w, sleeps (trace (m w)) = []) -> pauses 0 m.
Proof. intros H w. rewrite H. simpl. lia. Qed.

Lemma pauses_log msg : pauses 0 (log (W := W) msg).
Proof. apply pauses_quiet. reflexivity. Qed.

Lemma pauses_call {A} (f : W -> A * W) : pauses 0 (call f).
Proof.
  apply pauses_quiet. intros w. unfold call, trace. destruct (f w). reflexivity.
Qed.

Lemma pauses_exec (f : W -> W) : pauses 0 (exec f).
Proof. apply pauses_quiet. reflexivity. Qed.

Lemma pauses_ret {A} (a : A) : pauses 0 (ret (W := W) a).
Proof. apply pauses_quiet. reflexivity. Qed.

Lemma pauses_sleep d : pauses 1 (emit (W := W) (Sleep d)).
Proof. intros w. simpl. lia. Qed.

Lemma get_aggregate_value_pauses xpath :
  pauses 1 (get_aggregate_value E xpath).
Proof.
  intros w. unfold get_aggregate_value, bind, call, trace.
  destruct (wait_visibility E 1 xpath w) as [[text|] w1]; simpl; [lia|].
  destruct (random_uniform E 3 9 w1) as [d w2]; simpl. lia.
Qed.

Lemma aggregate_values_pauses : pauses 4 (aggregate_values E).
Proof.
  unfold aggregate_values.
  apply (pauses_bind (a := 1) (b := 3)); [apply get_aggregate_value_pauses|].
  intros f1.
  apply (pauses_bind (a := 1) (b := 2)); [apply get_aggregate_value_pauses|].
  intros f2.
  apply (pauses_bind (a := 1) (b := 1)); [apply get_aggregate_value_pauses|].
  intros f3.
  apply (pauses_bind (a := 1) (b := 0)); [apply get_aggregate_value_pauses|].
  intros f4. apply pauses_ret.
Qed.

Lemma perform_search_pauses q title author isbn :
  pauses 4 (perform_search E q title author isbn).
Proof.
  unfold perform_search. cbv zeta.
  apply (pauses_bind (a := 0) (b := 4)); [apply pauses_exec | intros ?].
  apply (pauses_bind (a := 0) (b := 4));
    [apply pauses_quiet; reflexivity | intros ?].
  apply (pauses_bind (a := 0) (b := 4)); [apply pauses_log | intros ?].
  apply (pauses_bind (a := 0) (b := 4)); [apply pauses_call | intros present].
  destruct present.
  - apply (pauses_bind (a := 0) (b := 4)); [apply pauses_log | intros ?].
    apply (pauses_bind (a := 4) (b := 0));
      [apply aggregate_values_pauses | intros fields].
    apply (pauses_bind (a := 0) (b := 0)); [apply pauses_log | intros ?].
    destruct (negb (Py.any fields)).
    + apply (pauses_bind (a := 0) (b := 0)); [apply pauses_log | intros ?].
      apply pauses_ret.
    + apply (pauses_bind (a := 0) (b := 0)); [apply pauses_log | intros ?].
      apply (pauses_bind (a := 0) (b := 0));
        [apply pauses_quiet; reflexivity | intros ?].
      apply pauses_ret.
  - apply pauses_le with (a := 0); [lia|].
    apply (pauses_bind (a := 0) (b := 0)); [apply pauses_log | intros ?].
    apply pauses_ret.
Qed.

Lemma attempts_pauses entry : pauses 8 (attempts E entry).
Proof.
  destruct entry as [[title author] isbn].
  unfold attempts, primary_attempt, secondary_attempt.
  apply (pauses_bind (a := 4) (b := 4));
    [apply perform_search_pauses | intros found].
  destruct found; simpl.
  - apply pauses_le with (a := 0); [lia | apply pauses_ret].
  - apply (pauses_bind (a := 4) (b := 0));
      [apply perform_search_pauses | intros ?; apply pauses_ret].
Qed.

Lemma process_sleeps entry w :
  sleeps (trace (process E entry w))
  = (sleeps (trace (attempts E entry w))
     ++ [fst (random_uniform E 15 40 (world (attempts E entry w)))])%list.
Proof.
  rewrite process_trace. simpl. rewrite sleeps_app, pause_run. reflexivity.
Qed.

Lemma iteration_sleeps_bound entry w :
  length (sleeps (trace (iteration E entry w))) <= 9.
Proof.
  destruct (running E w) eqn:Hr.
  - destruct (all_empty entry) eqn:He.
    + rewrite (@iteration_skipped _ E entry w Hr He). simpl. lia.
    + rewrite (@iteration_processed _ E entry w Hr He).
      unfold trace at 1. simpl snd.
      rewrite process_sleeps, length_app. simpl.
      pose proof (attempts_pauses entry w). lia.
  - rewrite (@iteration_cancelled _ E entry w Hr). simpl. lia.
Qed.

Lemma for_each_sleeps_bound data w :
  length (sleeps (trace (for_each E data w))) <= 9 * length data.
Proof.
  revert w. induction data as [|entry rest IH]; intros w.
  - simpl. lia.
  - rewrite for_each_cons.
    pose proof (iteration_sleeps_bound entry w) as Hi.
    destruct (value (iteration E entry w)).
    + unfold trace at 1. simpl snd. rewrite sleeps_app, length_app.
      specialize (IH (world (iteration E entry w))). simpl length. lia.
    + simpl length. lia.
Qed.

(** X8. How often the worker sleeps. An attempt whose container does
    not show up takes no back-off pause; a row takes at most nine pauses
    (four missing fields in each of two attempts, and the pause between
    rows) and a processed row at least one, the last, drawn between 15
    and 40; a run over [n] rows takes at most [9 * n]. *)
Theorem pauses_are_bounded :
  (forall q title author isbn w w0,
      wait_presence E 19 container (driver_get E (search_url q) w) = (false, w0) ->
      sleeps (trace (perform_search E q title author isbn w)) = [])
  /\ (forall entry w, length (sleeps (trace (iteration E entry w))) <= 9)
  /\ (forall entry w,
        running E w = true -> all_empty entry = false ->
        exists before,
          sleeps (trace (iteration E entry w))
          = (before ++ [fst (random_uniform E 15 40
                               (world (attempts E entry w)))])%list)
  /\ (forall data w,
        length (sleeps (trace (run E data w))) <= 9 * length data).
Proof.
  split; [|split; [|split]].
  - intros q title author isbn w w0 Hp.
    rewrite (@perform_search_timeout _ E q title author isbn w w0 Hp).
    reflexivity.
  - apply iteration_sleeps_bound.
  - intros entry w Hr He.
    rewrite (@iteration_processed _ E entry w Hr He).
    unfold trace at 1. simpl snd. rewrite process_sleeps.
    eexists. reflexivity.
  - intros data w. rewrite run_run. unfold trace at 1. simpl snd.
    rewrite sleeps_app. simpl. rewrite app_nil_r.
    apply for_each_sleeps_bound.
Qed.

End WorkerPauses.

(** ** More on loading, the table and exporting *)

Unset Implicit Arguments.

Section WindowExtras.

Import Pandas EbaySearcher.

Context {FS : Type} (X : Excel FS) (repr_list : list string -> string).

Lemma has_column_In name df :
  has_column name df = true <-> In name (columns df).
Proof.
  unfold has_column. rewrite existsb_exists. split.
  - intros [c [Hin Hc]]. apply String.eqb_eq in Hc. subst. exact Hin.
  - intros Hin. exists name. split; [exact Hin | apply String.eqb_refl].
Qed.

Lemma pick_absent name cols row :
  ~ In name cols -> pick name cols row = [].
Proof.
  revert row. induction cols as [|c cols IH]; intros row Hn; [reflexivity|].
  destruct row as [|x row]; [reflexivity|]. simpl.
  destruct (String.eqb_spec c name) as [Heq|Hne].
  - exfalso. apply Hn. left. exact Heq.
  - apply IH. intros Hin. apply Hn. right. exact Hin.
Qed.

Lemma pick_unique name cols row :
  NoDup cols -> In name cols -> length row = length cols ->
  pick name cols row = [nth (position name cols) row NaN].
Proof.
  revert row. induction cols as [|c cols IH]; intros row Hnd Hin Hlen.
  - destruct Hin.
  - destruct row as [|x row]; [discriminate Hlen|]. simpl.
    inversion Hnd as [|c' cols' Hc Hnd']; subst.
    destruct (String.eqb_spec c name) as [Heq|Hne].
    + subst. rewrite (pick_absent name cols row Hc). reflexivity.
    + destruct Hin as [Hin|Hin]; [contradiction|].
      apply IH; [exact Hnd' | exact Hin | simpl in Hlen; lia].
Qed.

Lemma required_columns_In df :
  has_required_columns df = true ->
  In "Title" (columns df) /\ In "Author" (columns df) /\ In "ISBN" (columns df).
Proof.
  unfold has_required_columns. intros H.
  apply andb_prop in H. destruct H as [H HI].
  apply andb_prop in H. destruct H as [HT HA].
  repeat split; apply has_column_In; assumption.
Qed.

(** X9. Loading a sheet whose labels are distinct and whose rows have a
    cell for every label gives, for each row of the sheet in order, the
    three cells under Title, Author and ISBN in that order, wherever
    these columns stand in the sheet and whatever other columns there
    are, a missing cell being the empty string. *)
Theorem loaded_rows_follow_labels
        (path : string) (fs : FS) (self : Self) (df : DataFrame) :
  read_excel X path fs = Returns df ->
  has_required_columns df = true ->
  NoDup (columns df) ->
  Forall (fun row => length row = length (columns df)) (rows df) ->
  data (fst (process_file X path fs self))
  = map (fun row => [cell_under "Title" (columns df) row;
                     cell_under "Author" (columns df) row;
                     cell_under "ISBN" (columns df) row])
        (rows df).
Proof.
  intros Hread Hcols Hnd Hrows.
  rewrite (@process_file_loaded _ X path fs self df Hread Hcols).
  unfold tolist, fillna, select. simpl. rewrite map_map.
  apply map_ext_in. intros row Hin.
  rewrite Forall_forall in Hrows. specialize (Hrows row Hin).
  destruct (required_columns_In df Hcols) as (HT & HA & HI).
  rewrite (pick_unique "Title" _ row Hnd HT Hrows),
    (pick_unique "Author" _ row Hnd HA Hrows),
    (pick_unique "ISBN" _ row Hnd HI Hrows).
  simpl. unfold cell_under.
  destruct (nth (position "Title" (columns df)) row NaN),
    (nth (position "Author" (columns df)) row NaN),
    (nth (position "ISBN" (columns df)) row NaN); reflexivity.
Qed.

(** X10. A load that succeeds keeps one row for each row of the sheet
    and leaves no missing value in the data. *)
Theorem loaded_data_has_no_missing_value
        (path : string) (fs : FS) (self : Self) (df : DataFrame) :
  read_excel X path fs = Returns df ->
  has_required_columns df = true ->
  length (data (fst (process_file X path fs self))) = length (rows df)
  /\ Forall (Forall (fun c => c <> NaN))
            (data (fst (process_file X path fs self))).
Proof.
  intros Hread Hcols.
  rewrite (@process_file_loaded _ X path fs self df Hread Hcols).
  unfold tolist, fillna, select. simpl. rewrite map_map. split.
  - apply length_map.
  - apply Forall_forall. intros row Hin.
    apply in_map_iff in Hin. destruct Hin as [r [Hr _]]. subst row.
    apply Forall_forall. intros c Hc.
    apply in_map_iff in Hc. destruct Hc as [x [Hx _]]. subst c.
    destruct x; discriminate.
Qed.

Lemma update_nth_at {A : Type} (f : A -> A) (pre : list A) (x : A) (rest : list A) :
  update_nth (length pre) f (pre ++ x :: rest)%list = (pre ++ f x :: rest)%list.
Proof.
  induction pre as [|y pre IH]; simpl; [reflexivity | rewrite IH; reflexivity].
Qed.

Lemma update_nth_beyond {A : Type} (f : A -> A) (n : nat) (l : list A) :
  length l <= n -> update_nth n f l = l.
Proof.
  revert n. induction l as [|x l IH]; intros n Hn; [destruct n; reflexivity|].
  destruct n as [|n]; simpl in *; [lia|]. rewrite IH; [reflexivity | lia].
Qed.

(** Setting items beyond the end of a row changes nothing. *)
Lemma fill_beyond (result : list string) (row : list (option string)) (k : nat) :
  length row <= k ->
  fold_left (fun row ix => update_nth (fst ix) (fun _ => Some (snd ix)) row)
            (combine (seq k (length result)) result) row
  = row.
Proof.
  revert k. induction result as [|x result IH]; intros k Hk; [reflexivity|].
  simpl. rewrite update_nth_beyond by exact Hk. apply IH. lia.
Qed.

(** Setting the items of a row one after the other, from the first
    empty cell on. *)
Lemma fill_row (result : list string) (pre : list (option string)) (m : nat) :
  fold_left (fun row ix => update_nth (fst ix) (fun _ => Some (snd ix)) row)
            (combine (seq (length pre) (length result)) result)
            (pre ++ repeat None m)%list
  = (pre ++ map Some (firstn m result) ++ repeat None (m - length result))%list.
Proof.
  revert pre m. induction result as [|x result IH]; intros pre m.
  - simpl. rewrite Nat.sub_0_r. destruct m; reflexivity.
  - destruct m as [|m].
    + simpl repeat. simpl firstn. simpl map. rewrite !app_nil_r.
      apply (fill_beyond (x :: result) pre (length pre)). lia.
    + simpl. rewrite update_nth_at.
      specialize (IH (pre ++ [Some x])%list m).
      rewrite length_app in IH. simpl in IH.
      rewrite Nat.add_1_r, <- !app_assoc in IH. simpl in IH.
      rewrite IH. reflexivity.
Qed.

Lemma fold_set_item_last (l : list (nat * string))
      (t : list (list (option string))) (row : list (option string)) :
  fold_left (fun t' ix => set_item (length t) (fst ix) (snd ix) t')
            l (t ++ [row])%list
  = (t ++ [fold_left (fun r ix => update_nth (fst ix) (fun _ => Some (snd ix)) r)
                     l row])%list.
Proof.
  revert row. induction l as [|ix l IH]; intros row; [reflexivity|].
  simpl. unfold set_item at 2. rewrite update_nth_at. apply IH.
Qed.

Lemma update_table_general result self :
  result_table (update_table repr_list result self)
  = (result_table self ++ [pad_row result])%list.
Proof.
  unfold update_table, insert_row, enumerate. simpl.
  rewrite fold_set_item_last. f_equal. f_equal.
  exact (fill_row result [] column_count).
Qed.

(** X11. A result of any length adds exactly one row at the end of the
    table and leaves the rows above, the loaded data and the earlier log
    lines as they were. The new row has seven cells: the first seven
    fields of the result, further fields being dropped and cells without
    a field staying empty; two lines are logged. *)
Theorem update_table_appends_one_row (result : list string) (self : Self) :
  result_table (update_table repr_list result self)
  = (result_table self ++ [pad_row result])%list
  /\ length (pad_row result) = 7
  /\ (length result = 7 -> pad_row result = map Some result)
  /\ data (update_table repr_list result self) = data self
  /\ exists line1 line2,
      log_window (update_table repr_list result self)
      = (log_window self ++ [line1; line2])%list.
Proof.
  split; [apply update_table_general|]. split; [|split; [|split]].
  - unfold pad_row, column_count.
    rewrite length_app, length_map, length_firstn, repeat_length. lia.
  - intros Hl.
    destruct result as [|a [|b [|c [|d [|e [|f [|g [|]]]]]]]]; try discriminate Hl.
    reflexivity.
  - reflexivity.
  - eexists. eexists. unfold update_table. simpl.
    rewrite <- app_assoc. reflexivity.
Qed.

Lemma accumulate_general rs self :
  result_table (accumulate repr_list rs self)
  = (result_table self ++ map pad_row rs)%list.
Proof.
  unfold accumulate. revert self. induction rs as [|r rs IH]; intros self.
  - simpl. rewrite app_nil_r. reflexivity.
  - simpl. rewrite IH, update_table_general, <- app_assoc. reflexivity.
Qed.

Lemma pad_row_length result : length (pad_row result) = column_count.
Proof.
  unfold pad_row, column_count.
  rewrite length_app, length_map, length_firstn, repeat_length. lia.
Qed.

Lemma pad_row_text result :
  map (fun col => match nth col (pad_row result) None with
                  | Some text => text
                  | None => ""
                  end)
      (seq 0 column_count)
  = pad_text result.
Proof.
  rewrite <- (pad_row_length result).
  rewrite (map_nth_seq (fun o : option string =>
                          match o with Some text => text | None => "" end)
                       None (pad_row result)).
  unfold pad_row, pad_text. rewrite map_app, map_map, map_id.
  f_equal. induction (column_count - length result); simpl;
    [reflexivity | f_equal; assumption].
Qed.

Lemma export_results_neutral path fs self :
  data (fst (export_results X path fs self)) = data self
  /\ result_table (fst (export_results X path fs self)) = result_table self.
Proof.
  unfold export_results.
  destruct (Nat.eqb (length (result_table self)) 0); [split; reflexivity|].
  destruct (Py.truthy path); split; reflexivity.
Qed.

(** X12. Exporting writes nothing when the table has no row (it logs
    that there is nothing to export) and nothing when the operator
    dismisses the save dialog (then it logs nothing either); in every
    case it leaves the table and the loaded data as they were. *)
Theorem export_writes_nothing_without_rows_or_name
        (path : string) (fs : FS) (self : Self) :
  (result_table self = [] ->
   export_results X path fs self = (log self "No results to export.", fs))
  /\ (result_table self <> [] ->
      export_results X "" fs self = (self, fs))
  /\ data (fst (export_results X path fs self)) = data self
  /\ result_table (fst (export_results X path fs self)) = result_table self.
Proof.
  split; [|split; [|apply export_results_neutral]].
  - intros Ht. unfold export_results. rewrite Ht. reflexivity.
  - intros Ht. unfold export_results.
    destruct (result_table self) as [|r t]; [congruence | reflexivity].
Qed.

(** X13. With a file named, what is written is one sheet with the seven
    labels and, for each result that arrived, in order of arrival, one
    row of seven strings: the fields of the result, cut or filled with
    empty strings to seven. *)
Theorem exported_sheet_holds_the_results
        (rs : list (list string)) (path : string) (fs : FS) (self : Self) :
  result_table self = [] ->
  rs <> [] ->
  path <> "" ->
  export_results X path fs (accumulate repr_list rs self)
  = (log (accumulate repr_list rs self) ("Results exported to " ++ path),
     to_excel X {| columns := export_columns;
                   rows := map (fun r => map Str (pad_text r)) rs |}
              path fs).
Proof.
  intros Ht Hne Hp. unfold export_results.
  rewrite accumulate_general, Ht. simpl app.
  destruct rs as [|r0 rs0] eqn:Ers; [congruence|]. rewrite <- Ers in *.
  assert (Hlen : Nat.eqb (length (map pad_row rs)) 0 = false)
    by (rewrite Ers; reflexivity).
  rewrite Hlen. apply truthy_nonempty in Hp. rewrite Hp.
  f_equal. f_equal. f_equal.
  unfold item.
  rewrite (map_nth_seq
             (fun r => map (fun col => match nth col r None with
                                       | Some text => text
                                       | None => ""
                                       end) (seq 0 column_count))
             [] (map pad_row rs)).
  rewrite !map_map. apply map_ext. intros r. rewrite pad_row_text. reflexivity.
Qed.

End WindowExtras.

(** ** Settings, starting and stopping a search *)

Section ShellExtras.

Import Pandas EbaySearcher Shell.

Context {FS : Type} (J : Json FS) (X : Excel FS)
        (repr_list : list string -> string).

Lemma dict_get_set_same key value default d :
  dict_get key default (dict_set key value d) = value.
Proof.
  induction d as [|[k v] d IH]; simpl.
  - rewrite String.eqb_refl. reflexivity.
  - destruct (String.eqb_spec k key) as [Heq|Hne]; simpl.
    + subst. rewrite String.eqb_refl. reflexivity.
    + destruct (String.eqb_spec k key); [contradiction | exact IH].
Qed.

Lemma dict_get_set_other key key' value default d :
  key <> key' ->
  dict_get key' default (dict_set key value d) = dict_get key' default d.
Proof.
  intros Hne. induction d as [|[k v] d IH]; simpl.
  - destruct (String.eqb_spec key key'); [contradiction | reflexivity].
  - destruct (String.eqb_spec k key) as [Heq|Hk]; simpl.
    + subst. destruct (String.eqb_spec key key'); [contradiction | reflexivity].
    + destruct (String.eqb_spec k key'); [reflexivity | exact IH].
Qed.

(** X14. Saving the settings records the four line edits under their
    keys, keeps the value of every other key of the settings, dumps the
    resulting object to the settings file and changes nothing else in
    the window. *)
Theorem save_settings_records_inputs (win : Window) (fs : FS) (default : string) :
  let saved := fst (save_settings J win fs) in
  dict_get "user_data_dir" default (settings saved) = user_data_dir_input win
  /\ dict_get "profile_directory" default (settings saved) = profile_dir_input win
  /\ dict_get "chromedriver_path" default (settings saved) = chromedriver_input win
  /\ dict_get "excel_file" default (settings saved) = excel_file_input win
  /\ (forall key,
        key <> "user_data_dir" -> key <> "profile_directory" ->
        key <> "chromedriver_path" -> key <> "excel_file" ->
        dict_get key default (settings saved)
        = dict_get key default (settings win))
  /\ snd (save_settings J win fs)
     = json_dump J (settings saved) settings_file fs
  /\ saved = with_settings win (settings saved).
Proof.
  cbv zeta. unfold save_settings. simpl.
  repeat split.
  - rewrite !dict_get_set_other by discriminate. apply dict_get_set_same.
  - rewrite !dict_get_set_other by discriminate. apply dict_get_set_same.
  - rewrite !dict_get_set_other by discriminate. apply dict_get_set_same.
  - apply dict_get_set_same.
  - intros key H1 H2 H3 H4.
    rewrite !dict_get_set_other by congruence. reflexivity.
Qed.

Lemma setup_selenium_missing win desk :
  paths_filled win = false ->
  setup_selenium win desk
  = (false, with_self win (log (self win) paths_error), desk).
Proof.
  intros H. unfold setup_selenium. unfold paths_filled in H.
  destruct (Py.truthy (user_data_dir_input win)),
    (Py.truthy (profile_dir_input win)),
    (Py.truthy (chromedriver_input win)); simpl in *;
    try discriminate; reflexivity.
Qed.

(** The browser that the line edits of a window ask for. *)
Lemma setup_selenium_launches win desk :
  paths_filled win = true ->
  setup_selenium win desk
  = (true, with_driver win (chrome_of win),
     {| browsers := (browsers desk ++ [chrome_of win])%list;
        workers := workers desk |}).
Proof.
  intros H. unfold setup_selenium. unfold paths_filled in H.
  destruct (Py.truthy (user_data_dir_input win)),
    (Py.truthy (profile_dir_input win)),
    (Py.truthy (chromedriver_input win)); simpl in *;
    try discriminate; reflexivity.
Qed.

(** X15. Starting the window with no settings file: the four line edits
    are empty, no browser is launched, the missing paths are reported
    once in the log, nothing is loaded and no worker exists. *)
Theorem first_start_launches_nothing (fs : FS) (desk : Desktop) :
  path_exists J settings_file fs = false ->
  init J fs desk
  = ({| self := {| data := []; log_window := [paths_error];
                   result_table := [] |};
        user_data_dir_input := "";
        profile_dir_input := "";
        chromedriver_input := "";
        excel_file_input := "";
        settings := [];
        driver := None;
        worker := None |},
     desk).
Proof.
  intros H. unfold init, load_settings. rewrite H. reflexivity.
Qed.

(** X16. With a store that gives back what was dumped, the window that
    starts after the settings were saved shows in its four line edits
    what they held when saved, and starts with no data and no worker. *)
Theorem restart_restores_inputs (win : Window) (fs : FS) (desk : Desktop) :
  keeps_dump J ->
  let restarted := fst (init J (snd (save_settings J win fs)) desk) in
  user_data_dir_input restarted = user_data_dir_input win
  /\ profile_dir_input restarted = profile_dir_input win
  /\ chromedriver_input restarted = chromedriver_input win
  /\ excel_file_input restarted = excel_file_input win
  /\ data (self restarted) = []
  /\ worker restarted = None.
Proof.
  intros HJ. cbv zeta.
  destruct (save_settings_records_inputs win fs "") as (H1 & H2 & H3 & H4 & _ & Hfs & _).
  cbv zeta in *. rewrite Hfs.
  set (d := settings (fst (save_settings J win fs))) in *.
  destruct (HJ d settings_file fs) as [Hex Hload].
  unfold init, load_settings. rewrite Hex, Hload.
  match goal with
  | |- context [setup_selenium ?w desk] =>
      remember w as win0 eqn:Hw0;
      assert (Hu : user_data_dir_input win0 = user_data_dir_input win)
        by (subst win0; exact H1);
      assert (Hp : profile_dir_input win0 = profile_dir_input win)
        by (subst win0; exact H2);
      assert (Hc : chromedriver_input win0 = chromedriver_input win)
        by (subst win0; exact H3);
      assert (He : excel_file_input win0 = excel_file_input win)
        by (subst win0; exact H4);
      assert (Hwk : worker win0 = None) by (subst win0; reflexivity)
  end.
  clear Hw0.
  destruct (paths_filled win0) eqn:Hall.
  - rewrite (setup_selenium_launches win0 desk Hall). simpl.
    repeat split; assumption.
  - rewrite (setup_selenium_missing win0 desk Hall). simpl.
    repeat split; assumption.
Qed.


(** X17. A search starts only with rows loaded and the three paths
    filled in. With no row loaded nothing happens but one log line, and
    no browser is launched even if the paths are there; with a path
    missing two lines are logged and no browser and no worker come to
    be. Otherwise one browser is launched, with the driver path and the
    five arguments of the line edits, and one worker is created, running,
    with the loaded rows; the window refers to it and every worker
    created before is as it was. *)
Theorem search_needs_rows_and_paths (win : Window) (desk : Desktop) :
  let after := search_ebay win desk in
  (data (self win) = [] ->
   after
   = (with_self win
        (log (self win) "No data to process. Please load an Excel file first."),
      desk))
  /\ (data (self win) <> [] -> paths_filled win = false ->
      snd after = desk
      /\ worker (fst after) = worker win
      /\ driver (fst after) = driver win
      /\ log_window (self (fst after))
         = (log_window (self win)
              ++ [paths_error;
                  "Selenium setup failed. Please check the paths and try again."])%list)
  /\ (data (self win) <> [] -> paths_filled win = true ->
      browsers (snd after) = (browsers desk ++ [chrome_of win])%list
      /\ workers (snd after)
         = (workers desk
              ++ [new_worker (Some (chrome_of win)) (data (self win))])%list
      /\ worker (fst after) = Some (length (workers desk))
      /\ driver (fst after) = Some (chrome_of win)
      /\ self (fst after) = self win)
  /\ (length (workers (snd after)) = S (length (workers desk))
      <-> data (self win) <> [] /\ paths_filled win = true).
Proof.
  cbv zeta.
  assert (Hd : data (self win) = [] ->
               search_ebay win desk
               = (with_self win
                    (log (self win)
                         "No data to process. Please load an Excel file first."),
                  desk)).
  { intros Hd. unfold search_ebay. rewrite Hd. reflexivity. }
  assert (Hm : data (self win) <> [] -> paths_filled win = false ->
               search_ebay win desk
               = (with_self win
                    (log (log (self win) paths_error)
                         "Selenium setup failed. Please check the paths and try again."),
                  desk)).
  { intros Hne Hp. unfold search_ebay.
    destruct (data (self win)) as [|r rs]; [congruence|].
    rewrite (setup_selenium_missing win desk Hp). reflexivity. }
  assert (Hs : data (self win) <> [] -> paths_filled win = true ->
               search_ebay win desk
               = (with_worker (with_driver win (chrome_of win))
                              (length (workers desk)),
                  {| browsers := (browsers desk ++ [chrome_of win])%list;
                     workers := (workers desk
                                   ++ [new_worker (Some (chrome_of win))
                                                  (data (self win))])%list |})).
  { intros Hne Hp. unfold search_ebay.
    destruct (data (self win)) as [|r rs] eqn:Hdata; [congruence|].
    rewrite (setup_selenium_launches win desk Hp). simpl.
    rewrite Hdata. reflexivity. }
  split; [exact Hd|]. split; [|split].
  - intros Hne Hp. rewrite (Hm Hne Hp). simpl.
    rewrite <- app_assoc. repeat split; reflexivity.
  - intros Hne Hp. rewrite (Hs Hne Hp). simpl. repeat split; reflexivity.
  - destruct (data (self win)) as [|r rs] eqn:Hdata.
    + rewrite (Hd eq_refl). simpl. split; [lia | intros [H _]; congruence].
    + destruct (paths_filled win) eqn:Hp.
      * rewrite Hs by congruence. simpl. rewrite length_app. simpl.
        split; [intros _; split; congruence | lia].
      * rewrite Hm by congruence. simpl.
        split; [lia | intros [_ H]; discriminate H].
Qed.

Lemma nth_error_update_nth {A : Type} (f : A -> A) (n i : nat) (l : list A) :
  nth_error (update_nth n f l) i
  = if Nat.eqb i n then option_map f (nth_error l i) else nth_error l i.
Proof.
  revert n i. induction l as [|x l IH]; intros n i.
  - destruct n, i; simpl; try reflexivity; destruct (Nat.eqb i n); reflexivity.
  - destruct n as [|n], i as [|i]; simpl; try reflexivity. apply IH.
Qed.

(** X18. Cancelling clears the flag of the worker the window refers to
    and of no other: with no worker it does nothing, and after two
    searches were started one after the other it stops the second
    worker while the first one keeps its flag set. It launches and
    closes no browser. *)
Theorem cancel_stops_only_the_latest_worker (win : Window) (desk : Desktop) :
  (worker win = None -> cancel_search win desk = (win, desk))
  /\ (forall ref i,
        worker win = Some ref ->
        fst (cancel_search win desk) = win
        /\ browsers (snd (cancel_search win desk)) = browsers desk
        /\ nth_error (workers (snd (cancel_search win desk))) i
           = if Nat.eqb i ref then option_map stop (nth_error (workers desk) i)
             else nth_error (workers desk) i)
  /\ (data (self win) <> [] -> paths_filled win = true ->
      let first := search_ebay win desk in
      let second := search_ebay (fst first) (snd first) in
      let after := cancel_search (fst second) (snd second) in
      let n := length (workers desk) in
      option_map _running (nth_error (workers (snd after)) n) = Some true
      /\ option_map _running (nth_error (workers (snd after)) (S n)) = Some false
      /\ length (browsers (snd after)) = 2 + length (browsers desk)).
Proof.
  split; [|split].
  - intros H. unfold cancel_search. rewrite H. reflexivity.
  - intros ref i H. unfold cancel_search. rewrite H. simpl.
    repeat split. apply nth_error_update_nth.
  - intros Hne Hp. cbv zeta.
    destruct (search_needs_rows_and_paths win desk) as (_ & _ & H1 & _).
    cbv zeta in H1. destruct (H1 Hne Hp) as (Hb1 & Hw1 & Hr1 & _ & Hs1).
    set (first := search_ebay win desk) in *.
    destruct (search_needs_rows_and_paths (fst first) (snd first))
      as (_ & _ & H2 & _).
    cbv zeta in H2.
    assert (Hne2 : data (self (fst first)) <> []) by (rewrite Hs1; exact Hne).
    assert (Hp2 : paths_filled (fst first) = true).
    { unfold first, search_ebay.
      destruct (data (self win)) as [|r rs]; [congruence|].
      rewrite (setup_selenium_launches win desk Hp). exact Hp. }
    destruct (H2 Hne2 Hp2) as (Hb2 & Hw2 & Hr2 & _ & _).
    set (second := search_ebay (fst first) (snd first)) in *.
    unfold cancel_search. rewrite Hr2. cbn [fst snd workers browsers].
    rewrite Hw2, Hw1, Hb2, Hb1, !length_app. cbn [length].
    rewrite !nth_error_update_nth.
    replace (length (workers desk) + 1) with (S (length (workers desk))) by lia.
    rewrite Nat.eqb_refl.
    destruct (Nat.eqb_spec (length (workers desk)) (S (length (workers desk))));
      [lia|].
    rewrite <- app_assoc.
    rewrite !(nth_error_app2 (workers desk)) by lia.
    rewrite Nat.sub_diag.
    replace (S (length (workers desk)) - length (workers desk)) with 1 by lia.
    simpl. repeat split; lia.
Qed.

End ShellExtras.

Section Browsing.

Import Pandas EbaySearcher Shell.

Context {FS : Type} (J : Json FS) (X : Excel FS)
        (repr_list : list string -> string).

(** [process_file] only adds to the log, one line at most. *)
Lemma process_file_log path fs self :
  exists rest,
    log_window (fst (process_file X path fs self))
    = (log_window self ++ rest)%list
    /\ length rest <= 1.
Proof.
  unfold process_file, process_file_try.
  destruct (read_excel X path fs) as [df|e].
  - destruct (negb (has_column "Title" df) || negb (has_column "Author" df)
              || negb (has_column "ISBN" df));
      simpl; eexists; split; try reflexivity; simpl; lia.
  - repeat match goal with
           | |- context [if ?b then _ else _] => destruct b
           end;
      simpl;
      try (eexists; split; [reflexivity | simpl; lia]).
    exists []. rewrite app_nil_r. split; [reflexivity | simpl; lia].
Qed.

(** X19. Dismissing a dialog changes nothing: no line edit, no setting,
    no file, no log line. Choosing a spreadsheet puts its path in the
    line edit, logs the choice, and saves the settings with that path
    before the file is read: the path is remembered whether the load
    succeeds, fails with a log line, or raises. *)
Theorem chosen_file_is_remembered_before_loading
        (path default : string) (win : Window) (fs : FS) :
  browse_file J X "" win fs = (win, fs, None)
  /\ browse_user_data_dir J "" win fs = (win, fs)
  /\ browse_chromedriver J "" win fs = (win, fs)
  /\ (path <> "" ->
      let chosen := browse_file J X path win fs in
      let after := fst (fst chosen) in
      excel_file_input after = path
      /\ dict_get "excel_file" default (settings after) = path
      /\ snd (fst chosen) = json_dump J (settings after) settings_file fs
      /\ (self after, snd chosen)
         = process_file X path (snd (fst chosen))
                        (log (self win) ("Selected file: " ++ path))
      /\ exists rest,
          log_window (self after)
          = (log_window (self win)
               ++ ("Selected file: " ++ path)%string :: rest)%list
          /\ length rest <= 1).
Proof.
  split; [reflexivity|]. split; [reflexivity|]. split; [reflexivity|].
  intros Hp. cbv zeta. apply truthy_nonempty in Hp.
  unfold browse_file. rewrite Hp. unfold save_settings. simpl.
  match goal with
  | |- context [process_file X path ?f ?s] =>
      destruct (process_file_log path f s) as (rest & Hlog & Hlen);
      destruct (process_file X path f s) as [s' e] eqn:Hpf
  end.
  simpl in *.
  split; [reflexivity|]. split; [apply dict_get_set_same|].
  split; [reflexivity|]. split; [symmetry; exact Hpf|].
  exists rest. split; [|exact Hlen].
  rewrite Hlog, <- app_assoc. reflexivity.
Qed.

End Browsing.

Section Delivery.

Import Pandas EbaySearcher Shell Worker.

Context {W : Type} (E : Env W) (repr_list : list string -> string).

Lemma deliver_app tr1 tr2 s :
  deliver repr_list (tr1 ++ tr2)%list s
  = deliver repr_list tr2 (deliver repr_list tr1 s).
Proof. unfold deliver. apply fold_left_app. Qed.

Lemma deliver_table tr s :
  result_table (deliver repr_list tr s)
  = (result_table s ++ map pad_row (results tr))%list.
Proof.
  revert s. induction tr as [|e tr IH]; intros s.
  - simpl. rewrite app_nil_r. reflexivity.
  - change (deliver repr_list (e :: tr) s)
      with (deliver repr_list tr (slot repr_list e s)).
    rewrite IH. destruct e; try reflexivity.
    cbn [slot results map].
    rewrite (update_table_general repr_list row s), <- app_assoc. reflexivity.
Qed.

Lemma deliver_data tr s : data (deliver repr_list tr s) = data s.
Proof.
  revert s. induction tr as [|e tr IH]; intros s; [reflexivity|].
  change (deliver repr_list (e :: tr) s)
    with (deliver repr_list tr (slot repr_list e s)).
  rewrite IH. destruct e; reflexivity.
Qed.

Lemma run_rows_have_seven_fields data w :
  Forall (fun row => length row = 7) (results (trace (run E data w))).
Proof.
  apply Forall_forall. intros row Hin. apply In_results in Hin.
  rewrite run_run in Hin. unfold trace in Hin. simpl in Hin.
  apply in_app_or in Hin. destruct Hin as [Hin|[Hin|[]]]; [|discriminate Hin].
  destruct (@for_each_rows _ E data data (incl_refl data) w) as [Ht _].
  rewrite Forall_forall in Ht. exact (proj1 (Ht _ Hin)).
Qed.

Lemma pad_row_seven row : length row = 7 -> pad_row row = map Some row.
Proof.
  intros Hl.
  destruct row as [|a [|b [|c [|d [|e [|f [|g [|]]]]]]]]; try discriminate Hl.
  reflexivity.
Qed.

(** X20. The window after the signals of a run arrived: the table has,
    below the rows it had, one row for each result of the run in order,
    holding its seven fields, so at most one more row for each input
    row; the loaded data are as they were; and the last line of the log
    says that the search completed. *)
Theorem search_fills_the_table (data : list Entry) (w : W) (s : Self) :
  let tr := trace (run E data w) in
  result_table (deliver repr_list tr s)
  = (result_table s ++ map (map Some) (results tr))%list
  /\ length (result_table (deliver repr_list tr s))
     <= length (result_table s) + length data
  /\ EbaySearcher.data (deliver repr_list tr s) = EbaySearcher.data s
  /\ last (log_window (deliver repr_list tr s)) "" = "Search completed.".
Proof.
  cbv zeta.
  assert (Ht : result_table (deliver repr_list (trace (run E data w)) s)
               = (result_table s
                    ++ map (map Some) (results (trace (run E data w))))%list).
  { rewrite deliver_table. f_equal.
    apply map_ext_in. intros row Hin.
    pose proof (run_rows_have_seven_fields data w) as H7.
    rewrite Forall_forall in H7. apply pad_row_seven. exact (H7 _ Hin). }
  split; [exact Ht|]. split; [|split].
  - rewrite Ht, length_app, length_map.
    pose proof (Subseq_length (run_results_subseq E data w)) as Hb.
    rewrite !length_map in Hb. lia.
  - apply deliver_data.
  - rewrite run_run. unfold trace. simpl snd. rewrite deliver_app.
    simpl. apply last_last.
Qed.

End Delivery.

(** ** The further theorems at work *)

Section MoreRuns.

Import Fixture Bench Worker.

Lemma loop_breaks_only_on_cancellation_witness :
  exists pre entry post w1 tr1,
    [dune; empty_row; dune_no_isbn] = (pre ++ entry :: post)%list
    /\ for_each (scripted dune_site) pre (start 1) = (Next, w1, tr1)
    /\ running (scripted dune_site) w1 = false
    /\ for_each (scripted dune_site) [dune; empty_row; dune_no_isbn] (start 1)
       = (Break, w1, (tr1 ++ [log_message "Search cancelled."])%list).
Proof.
  apply (@loop_breaks_only_on_cancellation
           World (scripted dune_site) [dune; empty_row; dune_no_isbn] (start 1)).
  reflexivity.
Defined.

Lemma row_yields_at_most_one_result_witness :
  length (results (trace (iteration (scripted dune_site) dune (start 3)))) = 1.
Proof.
  apply (proj2 (proj1 (proj2 (proj2 (proj2
           (@row_yields_at_most_one_result
              World (scripted dune_site) dune (start 3))))
           eq_refl eq_refl))).
  reflexivity.
Defined.

Lemma uncancelled_run_covers_every_row_witness :
  ~ In "Search cancelled."
       (logs (trace (run (tireless dune_site) [dune; empty_row] (start 0)))).
Proof.
  apply (proj1 (proj2
           (@uncancelled_run_covers_every_row
              World (tireless dune_site) [dune; empty_row] (start 0)
              (fun u => eq_refl)))).
Defined.

Lemma result_statistics_are_stripped_witness :
  Forall stripped
         (skipn 3 ["Dune"; "Frank Herbert"; "9780441013593"; "$12.50"; ""; ""; ""]).
Proof.
  apply (@result_statistics_are_stripped
           World (scripted dune_site) [dune] (start 3)).
  vm_compute. left. reflexivity.
Defined.

Lemma pauses_are_bounded_witness :
  sleeps (trace (perform_search (scripted barren) "9780441013593"
                                "" "" "9780441013593" (start 3)))
  = [].
Proof.
  apply (proj1 (@pauses_are_bounded World (scripted barren))
               "9780441013593" "" "" "9780441013593" (start 3)
               {| page := search_url "9780441013593"; patience := 3 |}).
  reflexivity.
Defined.

End MoreRuns.

Section MoreSheets.

Import Fixture Bench Pandas EbaySearcher Shell.

Lemma loaded_rows_follow_labels_witness :
  data (fst (process_file memory_excel "books.xlsx"
                          [("books.xlsx", book_sheet)] fresh))
  = [[Str "Dune"; Str ""; Num 9780441013593]].
Proof.
  refine (loaded_rows_follow_labels
            memory_excel "books.xlsx" [("books.xlsx", book_sheet)] fresh
            (read_back book_sheet) eq_refl eq_refl _ _).
  - repeat constructor; simpl; intuition discriminate.
  - repeat constructor.
Defined.

Lemma loaded_data_has_no_missing_value_witness :
  length (data (fst (process_file memory_excel "books.xlsx"
                                  [("books.xlsx", book_sheet)] fresh)))
  = 1.
Proof.
  exact (proj1 (loaded_data_has_no_missing_value
                  memory_excel "books.xlsx" [("books.xlsx", book_sheet)] fresh
                  (read_back book_sheet) eq_refl eq_refl)).
Defined.

Lemma update_table_appends_one_row_witness :
  pad_row dune_result = map Some dune_result.
Proof.
  exact (proj1 (proj2 (proj2
           (update_table_appends_one_row show_list dune_result fresh)))
           eq_refl).
Defined.

Lemma export_writes_nothing_without_rows_or_name_witness :
  export_results memory_excel "out.xlsx" [] fresh
  = (log fresh "No results to export.", []).
Proof.
  exact (proj1 (export_writes_nothing_without_rows_or_name
                  memory_excel "out.xlsx" [] fresh)
               eq_refl).
Defined.

Lemma exported_sheet_holds_the_results_witness :
  snd (export_results memory_excel "out.xlsx" []
         (accumulate show_list [["Dune"; "Frank Herbert"]] fresh))
  = [("out.xlsx",
      {| columns := export_columns;
         rows := [[Str "Dune"; Str "Frank Herbert"; Str ""; Str ""; Str "";
                   Str ""; Str ""]] |})].
Proof.
  refine (f_equal snd
            (exported_sheet_holds_the_results
               memory_excel show_list [["Dune"; "Frank Herbert"]] "out.xlsx"
               [] fresh eq_refl _ _)); discriminate.
Defined.

Lemma save_settings_records_inputs_witness :
  dict_get "theme" "" (settings (fst (save_settings memory_json ready []))) = "dark".
Proof.
  refine (proj1 (proj2 (proj2 (proj2 (proj2
            (save_settings_records_inputs memory_json ready [] "")))))
            "theme" _ _ _ _); discriminate.
Defined.

Lemma first_start_launches_nothing_witness :
  snd (init memory_json [] nothing_running) = nothing_running.
Proof.
  exact (f_equal snd
           (first_start_launches_nothing memory_json [] nothing_running eq_refl)).
Defined.

Lemma memory_json_keeps_dump : keeps_dump memory_json.
Proof.
  intros d path fs. simpl. rewrite String.eqb_refl. split; reflexivity.
Defined.

Lemma restart_restores_inputs_witness :
  profile_dir_input
    (fst (init memory_json (snd (save_settings memory_json ready []))
               nothing_running))
  = "Profile 1".
Proof.
  exact (proj1 (proj2
           (restart_restores_inputs memory_json ready [] nothing_running
                                    memory_json_keeps_dump))).
Defined.

Lemma search_needs_rows_and_paths_witness :
  worker (fst (search_ebay ready nothing_running)) = Some 0
  /\ snd (search_ebay no_profile nothing_running) = nothing_running.
Proof.
  split.
  - refine (proj1 (proj2 (proj2
              (proj1 (proj2 (proj2
                 (search_needs_rows_and_paths ready nothing_running)))
                 _ eq_refl)))).
    discriminate.
  - refine (proj1 (proj1 (proj2
              (search_needs_rows_and_paths no_profile nothing_running))
              _ eq_refl)).
    discriminate.
Defined.

Lemma cancel_stops_only_the_latest_worker_witness :
  option_map _running
    (nth_error
       (workers
          (snd (cancel_search
                  (fst (search_ebay (fst (search_ebay ready nothing_running))
                                    (snd (search_ebay ready nothing_running))))
                  (snd (search_ebay (fst (search_ebay ready nothing_running))
                                    (snd (search_ebay ready nothing_running)))))))
       0)
  = Some true.
Proof.
  refine (proj1 (proj2 (proj2
            (cancel_stops_only_the_latest_worker ready nothing_running))
            _ eq_refl)).
  discriminate.
Defined.

Lemma chosen_file_is_remembered_before_loading_witness :
  dict_get "excel_file" ""
    (settings (fst (fst (browse_file memory_json no_excel "books.xlsx"
                                     ready []))))
  = "books.xlsx".
Proof.
  refine (proj1 (proj2 (proj2 (proj2 (proj2
            (chosen_file_is_remembered_before_loading
               memory_json no_excel "books.xlsx" "" ready []))) _))).
  discriminate.
Defined.

End MoreSheets.
